(** * ConnectorContext: a shallow embedding of
    [pipelines/airbyte_ci/connectors/context.py]

    The Python module declares one class, [ConnectorContext], which
    - reads the connector descriptor ([metadata]),
    - derives the test steps to skip from it
      ([_get_step_id_to_skip_according_to_metadata],
       [_skip_metadata_disabled_test_suites]),
    - wraps credentials into secret handles (the [*_secret] properties),
    - memoizes the connector secrets ([get_connector_secrets]),
    - and tears the run down on scope exit ([__aexit__]).

    Python values are embedded as inductive types, exceptions as an
    [outcome] monad, object mutation as explicit state passing, and the
    objects that are shared by reference (the run-step options and the
    list they hold) live in a heap indexed by locations. *)

From stdpp Require Import gmap strings list fin_maps.
From Stdlib Require Import ZArith.

Set Warnings "-register-all".

Open Scope string_scope.
Open Scope list_scope.

(* ===================================================================== *)
(** ** Exceptions and outcomes *)
(* ===================================================================== *)

Definition path := list string.

(** The exception classes that the module can let escape.  An exception
    raised by a collaborator that lives outside this module is an
    [ExternalError] carrying the name of its class; a [FalsyError] is an
    instance of such a class whose truth value is false (the class defines
    [__bool__] or [__len__]). *)
Inductive py_exc : Type :=
| FileNotFoundError (p : path)
| IsADirectoryError (p : path)
| NotADirectoryError (p : path)
| PermissionError (p : path)
| UnicodeDecodeError
| ValueError
| YAMLError
| KeyError (key : string)
| TypeError
| AttributeError
| NotImplementedError
| RuntimeError (msg : string)
| ExternalError (class_name : string)
| FalsyError (class_name : string).

#[global] Instance py_exc_eq_dec : EqDecision py_exc.
Proof. solve_decision. Defined.

(** A Python call either returns a value or raises. *)
Inductive outcome (A : Type) : Type :=
| Return (a : A)
| Raise (e : py_exc).
Arguments Return {A} a.
Arguments Raise {A} e.

#[global] Instance outcome_ret : MRet outcome := fun _ a => Return a.
#[global] Instance outcome_bind : MBind outcome := fun _ _ f m =>
  match m with
  | Return a => f a
  | Raise e => Raise e
  end.

Definition returns {A} (o : outcome A) : bool :=
  match o with Return _ => true | Raise _ => false end.

(** [bool(e)] for an exception: true unless its class says otherwise. *)
Definition exception_truth (e : py_exc) : bool :=
  match e with
  | FalsyError _ => false
  | _ => true
  end.

(** The test [if x:] on an optional exception. *)
Definition truth_value (x : option py_exc) : bool :=
  match x with
  | Some e => exception_truth e
  | None => false
  end.

(** [[f(x) for x in xs]]: the comprehension stops at the first element
    on which [f] raises. *)
Fixpoint comprehension {A B} (f : A → outcome B) (xs : list A) : outcome (list B) :=
  match xs with
  | [] => Return []
  | x :: rest =>
      y ← f x;
      ys ← comprehension f rest;
      mret (y :: ys)
  end.

(* ===================================================================== *)
(** ** Values produced by [yaml.safe_load] *)
(* ===================================================================== *)

(** The tree that [yaml.safe_load] builds.  A mapping is kept as its
    items in insertion order; the keys of a loaded mapping are distinct.
    A float is kept as its scalar text: nothing below computes with it. *)
Inductive yaml : Type :=
| YNull
| YBool (b : bool)
| YInt (n : Z)
| YFloat (scalar : string)
| YStr (s : string)
| YList (items : list yaml)
| YMap (entries : list (yaml * yaml)).

(** [s == v] for a [str] [s]: a string only equals a string. *)
Definition str_eq (s : string) (v : yaml) : bool :=
  match v with
  | YStr t => String.eqb s t
  | _ => false
  end.

(** [key in d] / [d[key]] for a [str] key of a [dict]. *)
Fixpoint dict_lookup (key : string) (entries : list (yaml * yaml)) : option yaml :=
  match entries with
  | [] => None
  | (k, v) :: rest => if str_eq key k then Some v else dict_lookup key rest
  end.

(** [v[key]] with a [str] key: [KeyError] on a mapping without the key,
    [TypeError] on every other loaded value (lists and strings want
    integer indices, scalars and [None] are not subscriptable). *)
Definition py_getitem (v : yaml) (key : string) : outcome yaml :=
  match v with
  | YMap entries =>
      match dict_lookup key entries with
      | Some x => Return x
      | None => Raise (KeyError key)
      end
  | _ => Raise TypeError
  end.

(** [v.get(key, default)]: only mappings have a [get] attribute. *)
Definition py_get (v : yaml) (key : string) (default : yaml) : outcome yaml :=
  match v with
  | YMap entries =>
      match dict_lookup key entries with
      | Some x => Return x
      | None => Return default
      end
  | _ => Raise AttributeError
  end.

Fixpoint chars (s : string) : list yaml :=
  match s with
  | EmptyString => []
  | String c rest => YStr (String c EmptyString) :: chars rest
  end.

(** [for x in v]: lists yield their items, mappings their keys, strings
    their characters; the other loaded values are not iterable. *)
Definition py_iter (v : yaml) : outcome (list yaml) :=
  match v with
  | YList items => Return items
  | YMap entries => Return (entries.*1)
  | YStr s => Return (chars s)
  | _ => Raise TypeError
  end.

(** [x in xs] for a [str] [x] and a list [xs]. *)
Definition str_in (s : string) (xs : list yaml) : bool :=
  existsb (str_eq s) xs.

(* ===================================================================== *)
(** ** The step identifiers and the suite table *)
(* ===================================================================== *)

(** Modelled from the spec: the enumeration [CONNECTOR_TEST_STEP_ID] is
    declared in [pipelines.airbyte_ci.connectors.consts], which is not part
    of this module.  The module names three of its members, which the spec
    calls the three recognized step identifiers; every other member is an
    [OTHER_STEP]. *)
Inductive CONNECTOR_TEST_STEP_ID : Type :=
| UNIT
| INTEGRATION
| ACCEPTANCE
| OTHER_STEP (name : string).

#[global] Instance step_id_eq_dec : EqDecision CONNECTOR_TEST_STEP_ID.
Proof. solve_decision. Defined.

(** The dictionary literal, in insertion order. *)
Definition TEST_SUITE_NAME_TO_STEP_ID : list (string * CONNECTOR_TEST_STEP_ID) :=
  [ ("unitTests", UNIT);
    ("integrationTests", INTEGRATION);
    ("acceptanceTests", ACCEPTANCE) ].

(* ===================================================================== *)
(** ** The file system and the connector *)
(* ===================================================================== *)

(** What a path names: a regular file that can be read as text, a
    directory that can be searched, or any other node, given by what the
    operating system answers for it: [on_read] is the exception that
    opening and reading it raises (a [PermissionError], a
    [UnicodeDecodeError] for bytes that are not text, an [IsADirectoryError]
    for a directory), and [on_search] the exception that looking up a name
    below it raises (a [NotADirectoryError] for a file, a [PermissionError]
    for a directory that may not be searched), if any.  A file system lists
    the nodes that matter; a directory above a listed node need not be
    listed. *)
Inductive fs_node : Type :=
| FsFile (text : string)
| FsDir
| FsSpecial (on_read : py_exc) (on_search : option py_exc).

(** The paths above [p], from the outermost on: for [a/b/c], [a] and
    [a/b]. *)
Fixpoint ancestors_below (above : path) (p : path) : list path :=
  match p with
  | [] => []
  | name :: rest =>
      match rest with
      | [] => []
      | _ :: _ => (above ++ [name]) :: ancestors_below (above ++ [name]) rest
      end
  end.

Definition ancestors (p : path) : list path := ancestors_below [] p.

(** Looking up a name below the node at [q], on the way to [p]. *)
Definition search_through (fs : gmap path fs_node) (p q : path) : option py_exc :=
  match fs !! q with
  | None | Some FsDir => None
  | Some (FsFile _) => Some (NotADirectoryError p)
  | Some (FsSpecial _ on_search) => on_search
  end.

(** The first failure of the search along the paths [qs]. *)
Fixpoint first_failure (fs : gmap path fs_node) (p : path) (qs : list path) : option py_exc :=
  match qs with
  | [] => None
  | q :: rest =>
      match search_through fs p q with
      | Some e => Some e
      | None => first_failure fs p rest
      end
  end.

(** [Path.read_text()]: the path is resolved from its outermost component
    on, then the node is opened and read. *)
Definition read_text (fs : gmap path fs_node) (p : path) : outcome string :=
  match first_failure fs p (ancestors p) with
  | Some e => Raise e
  | None =>
      match fs !! p with
      | None => Raise (FileNotFoundError p)
      | Some FsDir => Raise (IsADirectoryError p)
      | Some (FsFile text) => Return text
      | Some (FsSpecial on_read _) => Raise on_read
      end
  end.

(** [ConnectorWithModifiedFiles], as far as this module reads it. *)
Record ConnectorWithModifiedFiles : Type := {
  code_directory : path;
  modified_files : list path
}.

(* ===================================================================== *)
(** ** Metadata accessor and step-skip policy *)
(* ===================================================================== *)

Section Metadata.

(** [METADATA_FILE_NAME] comes from [pipelines.helpers.utils] and
    [yaml.safe_load] from PyYAML: the parser returns the loaded document or
    raises (a [YAMLError] for a text that is no YAML document, a
    [ValueError] from a constructor of scalars, ...). *)
Variable METADATA_FILE_NAME : string.
Variable safe_load : string → outcome yaml.

Definition yaml_safe_load (text : string) : outcome yaml :=
  safe_load text.

(** [self.connector.code_directory / METADATA_FILE_NAME] *)
Definition metadata_path (connector : ConnectorWithModifiedFiles) : path :=
  code_directory connector ++ [METADATA_FILE_NAME].

(** [yaml.safe_load(self.metadata_path.read_text())["data"]] *)
Definition metadata (fs : gmap path fs_node)
    (connector : ConnectorWithModifiedFiles) : outcome yaml :=
  text ← read_text fs (metadata_path connector);
  doc ← yaml_safe_load text;
  py_getitem doc "data".

(** [[option["suite"] for option in
      metadata.get("connectorTestSuitesOptions", [])]] *)
Definition enabled_test_suites (md : yaml) : outcome (list yaml) :=
  options ← py_get md "connectorTestSuitesOptions" (YList []);
  items ← py_iter options;
  comprehension (λ option, py_getitem option "suite") items.

(** [[step_id for test_suite_name, step_id in
      TEST_SUITE_NAME_TO_STEP_ID.items()
      if test_suite_name not in enabled_test_suites]] *)
Definition steps_not_in (enabled : list yaml) : list CONNECTOR_TEST_STEP_ID :=
  (List.filter (λ entry, negb (str_in entry.1 enabled)) TEST_SUITE_NAME_TO_STEP_ID).*2.

(** The body of [_get_step_id_to_skip_according_to_metadata] once
    [self.metadata] has been read. *)
Definition step_id_to_skip_of (md : yaml) : outcome (list CONNECTOR_TEST_STEP_ID) :=
  enabled ← enabled_test_suites md;
  mret (steps_not_in enabled).

Definition _get_step_id_to_skip_according_to_metadata
    (fs : gmap path fs_node) (connector : ConnectorWithModifiedFiles)
    : outcome (list CONNECTOR_TEST_STEP_ID) :=
  md ← metadata fs connector;
  step_id_to_skip_of md.

End Metadata.

(* ===================================================================== *)
(** ** The connector context *)
(* ===================================================================== *)

(** Handles of the execution engine: a directory, and a named secret that
    wraps a plaintext (what [dagger_client.set_secret(name, plaintext)]
    returns). *)
Inductive Directory : Type :=
| DaggerDirectory (id : string).

Record Secret : Type := set_secret {
  secret_name : string;
  secret_plaintext : string
}.

#[global] Instance Secret_eq_dec : EqDecision Secret.
Proof. solve_decision. Defined.

(** Modelled from the spec: [ContextState] and the step results are declared
    by the pipeline models, outside this module; the spec names a final
    state (success, failure, error) computed at teardown and a report that
    lists the executed steps. *)
Inductive ContextState : Type :=
| INITIALIZED
| RUNNING
| SUCCESSFUL
| FAILURE
| ERROR.

Record StepResult : Type := {
  step : CONNECTOR_TEST_STEP_ID;
  success : bool
}.

(** [ConnectorReport(pipeline_context, steps_results)]; the back reference
    to the context is left out. *)
Record ConnectorReport : Type := {
  steps_results : list StepResult
}.

#[global] Instance StepResult_eq_dec : EqDecision StepResult.
Proof. solve_decision. Defined.

#[global] Instance ConnectorReport_eq_dec : EqDecision ConnectorReport.
Proof. solve_decision. Defined.

(** The attributes that [ConnectorContext.__init__] assigns, followed by
    the attributes of [PipelineContext] that this module reads or writes. *)
Record ConnectorContext : Type := {
  pipeline_name : string;
  connector : ConnectorWithModifiedFiles;
  use_remote_secrets : bool;
  connector_acceptance_test_image : string;
  _secrets_dir : option Directory;
  _updated_secrets_dir : option Directory;
  cdk_version : option string;
  should_save_report : bool;
  code_tests_only : bool;
  use_local_cdk : bool;
  use_host_gradle_dist_tar : bool;
  enable_report_auto_open : bool;
  docker_hub_username : option string;
  docker_hub_password : option string;
  s3_build_cache_access_key_id : option string;
  s3_build_cache_secret_key : option string;
  concurrent_cat : bool;
  _connector_secrets : option (gmap string Secret);
  (* PipelineContext *)
  is_ci : bool;
  slack_webhook : option string;
  reporting_slack_channel : option string;
  report : option ConnectorReport;
  state : ContextState;
  stopped_at : option Z
}.

(** Attribute assignments [self.x = v]. *)
Definition set_stopped_at (v : option Z) (c : ConnectorContext) : ConnectorContext :=
  {| pipeline_name := pipeline_name c; connector := connector c;
     use_remote_secrets := use_remote_secrets c;
     connector_acceptance_test_image := connector_acceptance_test_image c;
     _secrets_dir := _secrets_dir c; _updated_secrets_dir := _updated_secrets_dir c;
     cdk_version := cdk_version c; should_save_report := should_save_report c;
     code_tests_only := code_tests_only c; use_local_cdk := use_local_cdk c;
     use_host_gradle_dist_tar := use_host_gradle_dist_tar c;
     enable_report_auto_open := enable_report_auto_open c;
     docker_hub_username := docker_hub_username c;
     docker_hub_password := docker_hub_password c;
     s3_build_cache_access_key_id := s3_build_cache_access_key_id c;
     s3_build_cache_secret_key := s3_build_cache_secret_key c;
     concurrent_cat := concurrent_cat c; _connector_secrets := _connector_secrets c;
     is_ci := is_ci c; slack_webhook := slack_webhook c;
     reporting_slack_channel := reporting_slack_channel c;
     report := report c; state := state c; stopped_at := v |}.

Definition set_state (v : ContextState) (c : ConnectorContext) : ConnectorContext :=
  {| pipeline_name := pipeline_name c; connector := connector c;
     use_remote_secrets := use_remote_secrets c;
     connector_acceptance_test_image := connector_acceptance_test_image c;
     _secrets_dir := _secrets_dir c; _updated_secrets_dir := _updated_secrets_dir c;
     cdk_version := cdk_version c; should_save_report := should_save_report c;
     code_tests_only := code_tests_only c; use_local_cdk := use_local_cdk c;
     use_host_gradle_dist_tar := use_host_gradle_dist_tar c;
     enable_report_auto_open := enable_report_auto_open c;
     docker_hub_username := docker_hub_username c;
     docker_hub_password := docker_hub_password c;
     s3_build_cache_access_key_id := s3_build_cache_access_key_id c;
     s3_build_cache_secret_key := s3_build_cache_secret_key c;
     concurrent_cat := concurrent_cat c; _connector_secrets := _connector_secrets c;
     is_ci := is_ci c; slack_webhook := slack_webhook c;
     reporting_slack_channel := reporting_slack_channel c;
     report := report c; state := v; stopped_at := stopped_at c |}.

Definition set_report (v : option ConnectorReport) (c : ConnectorContext) : ConnectorContext :=
  {| pipeline_name := pipeline_name c; connector := connector c;
     use_remote_secrets := use_remote_secrets c;
     connector_acceptance_test_image := connector_acceptance_test_image c;
     _secrets_dir := _secrets_dir c; _updated_secrets_dir := _updated_secrets_dir c;
     cdk_version := cdk_version c; should_save_report := should_save_report c;
     code_tests_only := code_tests_only c; use_local_cdk := use_local_cdk c;
     use_host_gradle_dist_tar := use_host_gradle_dist_tar c;
     enable_report_auto_open := enable_report_auto_open c;
     docker_hub_username := docker_hub_username c;
     docker_hub_password := docker_hub_password c;
     s3_build_cache_access_key_id := s3_build_cache_access_key_id c;
     s3_build_cache_secret_key := s3_build_cache_secret_key c;
     concurrent_cat := concurrent_cat c; _connector_secrets := _connector_secrets c;
     is_ci := is_ci c; slack_webhook := slack_webhook c;
     reporting_slack_channel := reporting_slack_channel c;
     report := v; state := state c; stopped_at := stopped_at c |}.

Definition set_connector_secrets (v : option (gmap string Secret))
    (c : ConnectorContext) : ConnectorContext :=
  {| pipeline_name := pipeline_name c; connector := connector c;
     use_remote_secrets := use_remote_secrets c;
     connector_acceptance_test_image := connector_acceptance_test_image c;
     _secrets_dir := _secrets_dir c; _updated_secrets_dir := _updated_secrets_dir c;
     cdk_version := cdk_version c; should_save_report := should_save_report c;
     code_tests_only := code_tests_only c; use_local_cdk := use_local_cdk c;
     use_host_gradle_dist_tar := use_host_gradle_dist_tar c;
     enable_report_auto_open := enable_report_auto_open c;
     docker_hub_username := docker_hub_username c;
     docker_hub_password := docker_hub_password c;
     s3_build_cache_access_key_id := s3_build_cache_access_key_id c;
     s3_build_cache_secret_key := s3_build_cache_secret_key c;
     concurrent_cat := concurrent_cat c; _connector_secrets := v;
     is_ci := is_ci c; slack_webhook := slack_webhook c;
     reporting_slack_channel := reporting_slack_channel c;
     report := report c; state := state c; stopped_at := stopped_at c |}.

(* ===================================================================== *)
(** ** Credential accessors *)
(* ===================================================================== *)

(** Truth value of an [Optional[str]]: [None] and [""] are false. *)
Definition truthy (o : option string) : bool :=
  match o with
  | Some s => negb (String.eqb s "")
  | None => false
  end.

Definition s3_build_cache_access_key_id_secret (self : ConnectorContext) : option Secret :=
  if truthy (s3_build_cache_access_key_id self) then
    match s3_build_cache_access_key_id self with
    | Some value => Some (set_secret "s3_build_cache_access_key_id" value)
    | None => None
    end
  else None.

Definition s3_build_cache_secret_key_secret (self : ConnectorContext) : option Secret :=
  if truthy (s3_build_cache_access_key_id self) && truthy (s3_build_cache_secret_key self) then
    match s3_build_cache_secret_key self with
    | Some value => Some (set_secret "s3_build_cache_secret_key" value)
    | None => None
    end
  else None.

Definition docker_hub_username_secret (self : ConnectorContext) : option Secret :=
  match docker_hub_username self with
  | None => None
  | Some value => Some (set_secret "docker_hub_username" value)
  end.

Definition docker_hub_password_secret (self : ConnectorContext) : option Secret :=
  match docker_hub_password self with
  | None => None
  | Some value => Some (set_secret "docker_hub_password" value)
  end.

Definition updated_secrets_dir (self : ConnectorContext) : option Directory :=
  _updated_secrets_dir self.

Definition should_save_updated_secrets (self : ConnectorContext) : bool :=
  use_remote_secrets self && bool_decide (updated_secrets_dir self ≠ None).

(** Modelled from the spec: the property [should_send_slack_message] belongs
    to [PipelineContext]; a notification is sent when a notification target
    (webhook and channel) is configured, that is when neither is [None]. *)
Definition should_send_slack_message (self : ConnectorContext) : bool :=
  bool_decide (slack_webhook self ≠ None) &&
  bool_decide (reporting_slack_channel self ≠ None).

(* ===================================================================== *)
(** ** Run-step options: objects shared by reference *)
(* ===================================================================== *)

Definition loc := positive.

(** Modelled from the spec: [RunStepOptions] is declared in
    [pipelines.helpers.execution.run_steps]; it is a run-step configuration
    that carries a skip list.  The skip list is a Python list, held by
    reference; the remaining settings are plain values. *)
Record RunStepOptions : Type := {
  fail_fast : bool;
  skip_steps : loc;
  log_step_tree : bool;
  concurrency : Z
}.

Inductive obj : Type :=
| ObjList (items : list CONNECTOR_TEST_STEP_ID)
| ObjRunStepOptions (o : RunStepOptions).

Definition with_skip_steps (l : loc) (o : RunStepOptions) : RunStepOptions :=
  {| fail_fast := fail_fast o; skip_steps := l;
     log_step_tree := log_step_tree o; concurrency := concurrency o |}.

(** Allocation of a new object. *)
Definition alloc (o : obj) (σ : gmap loc obj) : loc * gmap loc obj :=
  let l := fresh (dom σ) in (l, <[l := o]> σ).

(** [copy.deepcopy(x)]: a list of enumeration members is copied into a new
    list (the members themselves are shared); an options object is copied
    into a new object that holds a copy of its skip list.  A location that
    holds nothing cannot be reached from Python: [None] marks it. *)
Definition deepcopy (l : loc) (σ : gmap loc obj) : option (loc * gmap loc obj) :=
  match σ !! l with
  | Some (ObjList items) => Some (alloc (ObjList items) σ)
  | Some (ObjRunStepOptions o) =>
      match σ !! skip_steps o with
      | Some (ObjList items) =>
          let '(l_items, σ1) := alloc (ObjList items) σ in
          Some (alloc (ObjRunStepOptions (with_skip_steps l_items o)) σ1)
      | _ => None
      end
  | None => None
  end.

(** [x.skip_steps]: [AttributeError] on an object without the attribute. *)
Definition getattr_skip_steps (l : loc) (σ : gmap loc obj) : option (outcome loc) :=
  match σ !! l with
  | Some (ObjRunStepOptions o) => Some (Return (skip_steps o))
  | Some (ObjList _) => Some (Raise AttributeError)
  | None => None
  end.

(** [xs += ys] on a list object extends it in place and yields the same
    object. *)
Definition list_iadd (l : loc) (ys : list CONNECTOR_TEST_STEP_ID)
    (σ : gmap loc obj) : option (outcome loc * gmap loc obj) :=
  match σ !! l with
  | Some (ObjList xs) => Some (Return l, <[l := ObjList (xs ++ ys)]> σ)
  | Some (ObjRunStepOptions _) => Some (Raise TypeError, σ)
  | None => None
  end.

(** [x.skip_steps = v] *)
Definition setattr_skip_steps (l v : loc) (σ : gmap loc obj) : option (gmap loc obj) :=
  match σ !! l with
  | Some (ObjRunStepOptions o) => Some (<[l := ObjRunStepOptions (with_skip_steps v o)]> σ)
  | _ => None
  end.

Section SkipDisabledSuites.

Variable METADATA_FILE_NAME : string.
Variable safe_load : string → outcome yaml.

(** [_skip_metadata_disabled_test_suites]:
<<
    run_step_options = deepcopy(run_step_options)
    run_step_options.skip_steps += self._get_step_id_to_skip_according_to_metadata()
    return run_step_options
>>
    The augmented assignment reads the attribute, evaluates the right-hand
    side, extends the list in place and stores the attribute back. *)
Definition _skip_metadata_disabled_test_suites
    (fs : gmap path fs_node) (connector : ConnectorWithModifiedFiles)
    (run_step_options : loc) (σ : gmap loc obj) : option (outcome loc * gmap loc obj) :=
  '(copied, σ1) ← deepcopy run_step_options σ;
  target ← getattr_skip_steps copied σ1;
  match target with
  | Raise e => Some (Raise e, σ1)
  | Return l_skip =>
      match _get_step_id_to_skip_according_to_metadata
              METADATA_FILE_NAME safe_load fs connector with
      | Raise e => Some (Raise e, σ1)
      | Return to_skip =>
          '(extended, σ2) ← list_iadd l_skip to_skip σ1;
          match extended with
          | Raise e => Some (Raise e, σ2)
          | Return l_new =>
              σ3 ← setattr_skip_steps copied l_new σ2;
              Some (Return copied, σ3)
          end
      end
  end.

End SkipDisabledSuites.

(** The skip list that an options object at [l] holds in heap [σ]. *)
Definition skip_list_at (l : loc) (σ : gmap loc obj) : option (list CONNECTOR_TEST_STEP_ID) :=
  match σ !! l with
  | Some (ObjRunStepOptions o) =>
      match σ !! skip_steps o with
      | Some (ObjList items) => Some items
      | _ => None
      end
  | _ => None
  end.

(* ===================================================================== *)
(** ** Effects: the context, the outside world and the calls made *)
(* ===================================================================== *)

(** What the module asks of its collaborators, in the order of the calls. *)
Inductive event : Type :=
| LogError (msg : string)
| CallSecretsGet
| CallSecretsUpload
| CallReportPrint (r : ConnectorReport)
| CallReportSave (r : ConnectorReport)
| CallUpdateCommitStatus (kwargs : list (string * string))
| CallSendMessage (message : string) (channel webhook : option string).

#[global] Instance event_eq_dec : EqDecision event.
Proof. solve_decision. Defined.

(** The state a method runs in: the context object, the state of the
    outside world, and the calls made so far (oldest first). *)
Record World (Env : Type) : Type := {
  ctx : ConnectorContext;
  env : Env;
  trace : list event
}.
Arguments ctx {Env} w.
Arguments env {Env} w.
Arguments trace {Env} w.

(** The collaborators, which live outside the module: each reads the state
    of the outside world, may change it, and returns or raises; none of
    them assigns to an attribute of the context.  [determine_final_state]
    and [github_commit_status] are members of [PipelineContext] and compute
    a value from the context. *)
Record Collaborators (Env : Type) : Type := {
  utcnow : Env → Z * Env;
  determine_final_state : option ConnectorReport → option py_exc → ContextState;
  github_commit_status : ConnectorContext → list (string * string);
  secrets_get_connector_secrets : ConnectorContext → Env → outcome (gmap string Secret) * Env;
  secrets_upload : ConnectorContext → Env → outcome unit * Env;
  report_print : ConnectorReport → Env → outcome unit * Env;
  report_save : ConnectorReport → Env → outcome unit * Env;
  update_commit_status_check : list (string * string) → Env → outcome unit * Env;
  send_message_to_webhook : string → option string → option string → Env → outcome unit * Env
}.
Arguments utcnow {Env} c.
Arguments determine_final_state {Env} c.
Arguments github_commit_status {Env} c.
Arguments secrets_get_connector_secrets {Env} c.
Arguments secrets_upload {Env} c.
Arguments report_print {Env} c.
Arguments report_save {Env} c.
Arguments update_commit_status_check {Env} c.
Arguments send_message_to_webhook {Env} c.

Section Effects.

Context {Env : Type}.

(** A method body: state in, outcome and state out. *)
Definition M (A : Type) : Type := World Env → outcome A * World Env.

#[global] Instance M_ret : MRet M := λ _ a w, (Return a, w).
#[global] Instance M_bind : MBind M := λ _ _ f m w,
  match m w with
  | (Return a, w') => f a w'
  | (Raise e, w') => (Raise e, w')
  end.

Definition get_self : M ConnectorContext :=
  λ w, (Return (ctx w), w).

Definition update_self (f : ConnectorContext → ConnectorContext) : M unit :=
  λ w, (Return tt, {| ctx := f (ctx w); env := env w; trace := trace w |}).

Definition emit (e : event) : M unit :=
  λ w, (Return tt, {| ctx := ctx w; env := env w; trace := trace w ++ [e] |}).

(** A call into the outside world. *)
Definition external {A} (f : Env → outcome A * Env) : M A :=
  λ w, let '(r, env') := f (env w) in
       (r, {| ctx := ctx w; env := env'; trace := trace w |}).

Definition lift {A} (o : outcome A) : M A :=
  λ w, (o, w).

Definition when (b : bool) (m : M unit) : M unit :=
  if b then m else mret tt.

Definition logger_error (msg : string) : M unit := emit (LogError msg).

Variable collab : Collaborators Env.

(** [get_connector_secrets]:
<<
    if self._connector_secrets is None:
        self._connector_secrets = await secrets.get_connector_secrets(self)
    return self._connector_secrets
>> *)
Definition get_connector_secrets : M (gmap string Secret) :=
  self ← get_self;
  match _connector_secrets self with
  | None =>
      emit CallSecretsGet;;
      fetched ← external (secrets_get_connector_secrets collab self);
      update_self (set_connector_secrets (Some fetched));;
      mret fetched
  | Some stored => mret stored
  end.

(** The method that a concrete pipeline type may override. *)
Variable create_slack_message : ConnectorContext → outcome string.

(** [__aexit__(exception_type, exception_value, traceback)] *)
Definition __aexit__ (exception_value : option py_exc) : M bool :=
  now ← external (λ e, let '(t, e') := utcnow collab e in (Return t, e'));
  update_self (set_stopped_at (Some now));;
  self ← get_self;
  update_self (set_state (determine_final_state collab (report self) exception_value));;
  when (truth_value exception_value)
    (logger_error "An error got handled by the ConnectorContext");;
  self ← get_self;
  when (bool_decide (report self = None))
    (logger_error "No test report was provided. This is probably due to an upstream error";;
     update_self (set_report (Some {| steps_results := [] |})));;
  self ← get_self;
  when (should_save_updated_secrets self)
    (emit CallSecretsUpload;;
     external (secrets_upload collab self));;
  self ← get_self;
  match report self with
  | None => lift (Raise AttributeError)
  | Some the_report =>
      emit (CallReportPrint the_report);;
      external (report_print collab the_report);;
      when (should_save_report self)
        (emit (CallReportSave the_report);;
         external (report_save collab the_report));;
      self ← get_self;
      emit (CallUpdateCommitStatus (github_commit_status collab self));;
      external (update_commit_status_check collab (github_commit_status collab self));;
      self ← get_self;
      when (should_send_slack_message self)
        (message ← lift (create_slack_message self);
         emit (CallSendMessage message (reporting_slack_channel self) (slack_webhook self));;
         external (send_message_to_webhook collab message
                     (reporting_slack_channel self) (slack_webhook self)));;
      mret true
  end.

(** [async with context: body].  The scope is entered, the body runs, and
    [__aexit__] runs with the exception of the body, if any: a true result
    suppresses that exception, a false one lets it propagate, and an
    exception raised by [__aexit__] itself replaces it. *)
Definition async_with {A} (body : M A) : M (option A) :=
  λ w,
    match body w with
    | (Return a, w1) =>
        match __aexit__ None w1 with
        | (Return _, w2) => (Return (Some a), w2)
        | (Raise e, w2) => (Raise e, w2)
        end
    | (Raise e, w1) =>
        match __aexit__ (Some e) w1 with
        | (Return true, w2) => (Return None, w2)
        | (Return false, w2) => (Raise e, w2)
        | (Raise e', w2) => (Raise e', w2)
        end
    end.

End Effects.

(** [ConnectorContext.create_slack_message]: [raise NotImplementedError]. *)
Definition create_slack_message (self : ConnectorContext) : outcome string :=
  Raise NotImplementedError.

(* ===================================================================== *)
(** ** Descriptors as the data model describes them *)
(* ===================================================================== *)

(** A suite option is a mapping with a [suite] entry. *)
Definition suite_option (option name : yaml) : Prop :=
  ∃ entries, option = YMap entries ∧ dict_lookup "suite" entries = Some name.

(** The metadata [md] is a mapping whose [connectorTestSuitesOptions], when
    present, is a list of suite options; [names] are the suite names it
    lists, in order. *)
Definition declares_suites (md : yaml) (names : list yaml) : Prop :=
  ∃ entries, md = YMap entries ∧
    match dict_lookup "connectorTestSuitesOptions" entries with
    | None => names = []
    | Some (YList options) => Forall2 suite_option options names
    | Some _ => False
    end.

(** Every path above [p] is a directory that can be searched (a path that
    the file system does not list counts as one). *)
Definition searchable_node (node : option fs_node) : Prop :=
  node = None ∨ node = Some FsDir ∨ ∃ on_read, node = Some (FsSpecial on_read None).

Definition searchable (fs : gmap path fs_node) (p : path) : Prop :=
  ∀ q, q ∈ ancestors p → searchable_node (fs !! q).

Definition recognized_step_ids : list CONNECTOR_TEST_STEP_ID :=
  [UNIT; INTEGRATION; ACCEPTANCE].

Definition is_mapping (v : yaml) : bool :=
  match v with YMap _ => true | _ => false end.

(* ===================================================================== *)
(** ** Concrete descriptors, contexts and collaborators *)
(* ===================================================================== *)

Definition source_foo : ConnectorWithModifiedFiles :=
  {| code_directory := ["airbyte-integrations"; "connectors"; "source-foo"];
     modified_files := [] |}.

Definition source_foo_data (options : list (yaml * yaml)) : yaml :=
  YMap ([ (YStr "dockerRepository", YStr "airbyte/source-foo");
          (YStr "dockerImageTag", YStr "1.2.3") ] ++ options).

Definition unit_tests_only : list (yaml * yaml) :=
  [ (YStr "connectorTestSuitesOptions",
     YList [ YMap [ (YStr "suite", YStr "unitTests") ] ]) ].

(** A file system that holds one descriptor, and a parser that knows it. *)
Definition source_foo_fs : gmap path fs_node :=
  {[ ["airbyte-integrations"; "connectors"; "source-foo"; "metadata.yaml"]
       := FsFile "descriptor of source-foo" ]}.

(** A parser that loads every text as [doc], or rejects every text. *)
Definition load_as (doc : option yaml) : string → outcome yaml :=
  λ _, match doc with
       | Some loaded => Return loaded
       | None => Raise YAMLError
       end.

(** [fails_with o cls]: the call raised an instance of the class [cls],
    that is, [except cls] would catch it.  [exception_classes] lists the
    class of an exception followed by its bases. *)
Definition exception_classes (e : py_exc) : list string :=
  match e with
  | FileNotFoundError _ => ["FileNotFoundError"; "OSError"; "Exception"; "BaseException"]
  | IsADirectoryError _ => ["IsADirectoryError"; "OSError"; "Exception"; "BaseException"]
  | NotADirectoryError _ => ["NotADirectoryError"; "OSError"; "Exception"; "BaseException"]
  | PermissionError _ => ["PermissionError"; "OSError"; "Exception"; "BaseException"]
  | UnicodeDecodeError =>
      ["UnicodeDecodeError"; "UnicodeError"; "ValueError"; "Exception"; "BaseException"]
  | ValueError => ["ValueError"; "Exception"; "BaseException"]
  | YAMLError => ["YAMLError"; "Exception"; "BaseException"]
  | KeyError _ => ["KeyError"; "LookupError"; "Exception"; "BaseException"]
  | TypeError => ["TypeError"; "Exception"; "BaseException"]
  | AttributeError => ["AttributeError"; "Exception"; "BaseException"]
  | NotImplementedError =>
      ["NotImplementedError"; "RuntimeError"; "Exception"; "BaseException"]
  | RuntimeError _ => ["RuntimeError"; "Exception"; "BaseException"]
  | ExternalError cls => [cls; "Exception"; "BaseException"]
  | FalsyError cls => [cls; "Exception"; "BaseException"]
  end.

Definition fails_with {A} (o : outcome A) (cls : string) : Prop :=
  ∃ e, o = Raise e ∧ cls ∈ exception_classes e.

(** A context built with the defaults of [__init__], for the given
    credentials, notification target and report. *)
Definition new_context
    (access_key_id secret_key username password : option string)
    (webhook channel : option string)
    (the_report : option ConnectorReport) : ConnectorContext :=
  {| pipeline_name := "test";
     connector := source_foo;
     use_remote_secrets := true;
     connector_acceptance_test_image := "airbyte/connector-acceptance-test:dev";
     _secrets_dir := None;
     _updated_secrets_dir := None;
     cdk_version := None;
     should_save_report := true;
     code_tests_only := false;
     use_local_cdk := false;
     use_host_gradle_dist_tar := false;
     enable_report_auto_open := true;
     docker_hub_username := username;
     docker_hub_password := password;
     s3_build_cache_access_key_id := access_key_id;
     s3_build_cache_secret_key := secret_key;
     concurrent_cat := false;
     _connector_secrets := None;
     is_ci := false;
     slack_webhook := webhook;
     reporting_slack_channel := channel;
     report := the_report;
     state := RUNNING;
     stopped_at := None |}.

(** A heap with one options object, whose skip list already names the
    unit tests. *)
Definition cli_options : RunStepOptions :=
  {| fail_fast := true; skip_steps := 2%positive;
     log_step_tree := true; concurrency := 10 |}.

Definition cli_heap : gmap loc obj :=
  {[ 1%positive := ObjRunStepOptions cli_options;
     2%positive := ObjList [OTHER_STEP "qa_checks"; UNIT] ]}.

(** A descriptor that enables the acceptance tests only. *)
Definition acceptance_tests_only : list (yaml * yaml) :=
  [ (YStr "connectorTestSuitesOptions",
     YList [ YMap [ (YStr "suite", YStr "acceptanceTests") ] ]) ].





(** The events that a method adds to the trace. *)
Definition new_events {Env} (before after : World Env) : list event :=
  drop (length (trace before)) (trace after).

(** Collaborators that always return. *)
Definition final_state_of (r : option ConnectorReport) (exc : option py_exc) : ContextState :=
  match exc, r with
  | Some _, _ | None, None => ERROR
  | None, Some rep => if forallb success (steps_results rep) then SUCCESSFUL else FAILURE
  end.











Definition notified_context : ConnectorContext :=
  new_context None None None None
    (Some "https://hooks.slack.com/services/T000") (Some "#connector-ci") None.




(** [n] calls of a method, one after the other, on the same context. *)
Fixpoint repeatedly {Env A} (n : nat) (m : M (Env := Env) A) : M (Env := Env) (list A) :=
  match n with
  | O => mret []
  | S k =>
      a ← m;
      rest ← repeatedly k m;
      mret (a :: rest)
  end.

(** A caller that catches the exception of a call:
    [try: r = await m() except Exception: r = None]. *)
Definition attempt {Env A} (m : M (Env := Env) A) : M (Env := Env) (option A) :=
  λ w,
    match m w with
    | (Return a, w') => (Return (Some a), w')
    | (Raise _, w') => (Return None, w')
    end.


(** A secret store that answers with one secret. *)
Definition one_secret : gmap string Secret :=
  {[ "config.json" := set_secret "config.json" "{}" ]}.


(* ===================================================================== *)
(** ** Further members of the class *)
(* ===================================================================== *)

Section DockerImage.

Variable METADATA_FILE_NAME : string.
Variable safe_load : string → outcome yaml.

(** What an f-string field [{v}] writes for a loaded value [v]; a [str]
    is written as it is (the hypotheses of the theorems say so). *)
Variable format_value : yaml → string.

(** [self.metadata["dockerRepository"]] *)
Definition docker_repository (fs : gmap path fs_node)
    (connector : ConnectorWithModifiedFiles) : outcome yaml :=
  md ← metadata METADATA_FILE_NAME safe_load fs connector;
  py_getitem md "dockerRepository".

(** [self.metadata["dockerImageTag"]] *)
Definition docker_image_tag (fs : gmap path fs_node)
    (connector : ConnectorWithModifiedFiles) : outcome yaml :=
  md ← metadata METADATA_FILE_NAME safe_load fs connector;
  py_getitem md "dockerImageTag".

(** [f"{self.docker_repository}:{self.docker_image_tag}"]: the fields are
    evaluated from left to right, each reading the descriptor again. *)
Definition docker_image (fs : gmap path fs_node)
    (connector : ConnectorWithModifiedFiles) : outcome string :=
  repository ← docker_repository fs connector;
  tag ← docker_image_tag fs connector;
  mret (format_value repository +:+ ":" +:+ format_value tag).

End DockerImage.

(** [secrets_dir], [updated_secrets_dir] (the getter is above) and their
    setters. *)
Definition secrets_dir (self : ConnectorContext) : option Directory :=
  _secrets_dir self.

Definition set_secrets_dir (secrets_dir : Directory) (c : ConnectorContext) : ConnectorContext :=
  {| pipeline_name := pipeline_name c; connector := connector c;
     use_remote_secrets := use_remote_secrets c;
     connector_acceptance_test_image := connector_acceptance_test_image c;
     _secrets_dir := Some secrets_dir; _updated_secrets_dir := _updated_secrets_dir c;
     cdk_version := cdk_version c; should_save_report := should_save_report c;
     code_tests_only := code_tests_only c; use_local_cdk := use_local_cdk c;
     use_host_gradle_dist_tar := use_host_gradle_dist_tar c;
     enable_report_auto_open := enable_report_auto_open c;
     docker_hub_username := docker_hub_username c;
     docker_hub_password := docker_hub_password c;
     s3_build_cache_access_key_id := s3_build_cache_access_key_id c;
     s3_build_cache_secret_key := s3_build_cache_secret_key c;
     concurrent_cat := concurrent_cat c; _connector_secrets := _connector_secrets c;
     is_ci := is_ci c; slack_webhook := slack_webhook c;
     reporting_slack_channel := reporting_slack_channel c;
     report := report c; state := state c; stopped_at := stopped_at c |}.

Definition set_updated_secrets_dir (updated_secrets_dir : Directory)
    (c : ConnectorContext) : ConnectorContext :=
  {| pipeline_name := pipeline_name c; connector := connector c;
     use_remote_secrets := use_remote_secrets c;
     connector_acceptance_test_image := connector_acceptance_test_image c;
     _secrets_dir := _secrets_dir c; _updated_secrets_dir := Some updated_secrets_dir;
     cdk_version := cdk_version c; should_save_report := should_save_report c;
     code_tests_only := code_tests_only c; use_local_cdk := use_local_cdk c;
     use_host_gradle_dist_tar := use_host_gradle_dist_tar c;
     enable_report_auto_open := enable_report_auto_open c;
     docker_hub_username := docker_hub_username c;
     docker_hub_password := docker_hub_password c;
     s3_build_cache_access_key_id := s3_build_cache_access_key_id c;
     s3_build_cache_secret_key := s3_build_cache_secret_key c;
     concurrent_cat := concurrent_cat c; _connector_secrets := _connector_secrets c;
     is_ci := is_ci c; slack_webhook := slack_webhook c;
     reporting_slack_channel := reporting_slack_channel c;
     report := report c; state := state c; stopped_at := stopped_at c |}.

(** *** The constructor *)

(** Handles that the constructor only passes on: a pull request of the
    git host and a build platform. *)
Inductive PullRequest : Type :=
| PullRequestNumber (n : Z).

Inductive Platform : Type :=
| PlatformName (name : string).

(** The parameters of [ConnectorContext.__init__]. *)
Record ConnectorContextArgs : Type := {
  arg_pipeline_name : string;
  arg_connector : ConnectorWithModifiedFiles;
  arg_is_local : bool;
  arg_git_branch : string;
  arg_git_revision : string;
  arg_diffed_branch : string;
  arg_git_repo_url : string;
  arg_report_output_prefix : string;
  arg_use_remote_secrets : bool;
  arg_ci_report_bucket : option string;
  arg_ci_gcs_credentials : option string;
  arg_ci_git_user : option string;
  arg_ci_github_access_token : option string;
  arg_connector_acceptance_test_image : string;
  arg_gha_workflow_run_url : option string;
  arg_dagger_logs_url : option string;
  arg_pipeline_start_timestamp : option Z;
  arg_ci_context : option string;
  arg_slack_webhook : option string;
  arg_reporting_slack_channel : option string;
  arg_pull_request : option PullRequest;
  arg_should_save_report : bool;
  arg_code_tests_only : bool;
  arg_use_local_cdk : bool;
  arg_use_host_gradle_dist_tar : bool;
  arg_enable_report_auto_open : bool;
  arg_docker_hub_username : option string;
  arg_docker_hub_password : option string;
  arg_s3_build_cache_access_key_id : option string;
  arg_s3_build_cache_secret_key : option string;
  arg_concurrent_cat : bool;
  arg_run_step_options : loc;
  arg_targeted_platforms : list Platform
}.

(** The keyword arguments of the call [super().__init__(...)]. *)
Record PipelineContextArgs : Type := {
  kw_pipeline_name : string;
  kw_is_local : bool;
  kw_git_branch : string;
  kw_git_revision : string;
  kw_diffed_branch : string;
  kw_git_repo_url : string;
  kw_report_output_prefix : string;
  kw_gha_workflow_run_url : option string;
  kw_dagger_logs_url : option string;
  kw_pipeline_start_timestamp : option Z;
  kw_ci_context : option string;
  kw_slack_webhook : option string;
  kw_reporting_slack_channel : option string;
  kw_pull_request : option PullRequest;
  kw_ci_report_bucket : option string;
  kw_ci_gcs_credentials : option string;
  kw_ci_git_user : option string;
  kw_ci_github_access_token : option string;
  kw_run_step_options : loc;
  kw_enable_report_auto_open : bool
}.

(** The attributes of [PipelineContext] that this module reads, as its
    constructor leaves them. *)
Record InheritedAttributes : Type := {
  base_is_ci : bool;
  base_slack_webhook : option string;
  base_reporting_slack_channel : option string;
  base_report : option ConnectorReport;
  base_state : ContextState;
  base_stopped_at : option Z
}.

(** What a call of the constructor hands back: the new context, the
    attribute [targeted_platforms], and the keyword arguments that the base
    constructor was called with. *)
Record Constructed : Type := {
  new_self : ConnectorContext;
  new_targeted_platforms : list Platform;
  super_kwargs : PipelineContextArgs
}.

Section Constructor.

Variable METADATA_FILE_NAME : string.
Variable safe_load : string → outcome yaml.

(** [PipelineContext.__init__], which is outside this module: from its
    keyword arguments it sets the inherited attributes, or raises; it
    leaves the objects of the heap as they are. *)
Variable PipelineContext_init : PipelineContextArgs → outcome InheritedAttributes.

(** [ConnectorContext.__init__]: the attributes are assigned, the keyword
    arguments of the base constructor are evaluated (which applies the
    step-skip policy to the options), and the base constructor runs. *)
Definition __init__ (args : ConnectorContextArgs)
    (fs : gmap path fs_node) (σ : gmap loc obj)
    : option (outcome Constructed * gmap loc obj) :=
  '(options, σ') ← _skip_metadata_disabled_test_suites METADATA_FILE_NAME safe_load
                     fs (arg_connector args) (arg_run_step_options args) σ;
  match options with
  | Raise e => Some (Raise e, σ')
  | Return run_step_options =>
      let kwargs :=
        {| kw_pipeline_name := arg_pipeline_name args;
           kw_is_local := arg_is_local args;
           kw_git_branch := arg_git_branch args;
           kw_git_revision := arg_git_revision args;
           kw_diffed_branch := arg_diffed_branch args;
           kw_git_repo_url := arg_git_repo_url args;
           kw_report_output_prefix := arg_report_output_prefix args;
           kw_gha_workflow_run_url := arg_gha_workflow_run_url args;
           kw_dagger_logs_url := arg_dagger_logs_url args;
           kw_pipeline_start_timestamp := arg_pipeline_start_timestamp args;
           kw_ci_context := arg_ci_context args;
           kw_slack_webhook := arg_slack_webhook args;
           kw_reporting_slack_channel := arg_reporting_slack_channel args;
           kw_pull_request := arg_pull_request args;
           kw_ci_report_bucket := arg_ci_report_bucket args;
           kw_ci_gcs_credentials := arg_ci_gcs_credentials args;
           kw_ci_git_user := arg_ci_git_user args;
           kw_ci_github_access_token := arg_ci_github_access_token args;
           kw_run_step_options := run_step_options;
           kw_enable_report_auto_open := arg_enable_report_auto_open args |} in
      match PipelineContext_init kwargs with
      | Raise e => Some (Raise e, σ')
      | Return base =>
          Some (Return
                  {| new_self :=
                       {| pipeline_name := arg_pipeline_name args;
                          connector := arg_connector args;
                          use_remote_secrets := arg_use_remote_secrets args;
                          connector_acceptance_test_image :=
                            arg_connector_acceptance_test_image args;
                          _secrets_dir := None;
                          _updated_secrets_dir := None;
                          cdk_version := None;
                          should_save_report := arg_should_save_report args;
                          code_tests_only := arg_code_tests_only args;
                          use_local_cdk := arg_use_local_cdk args;
                          use_host_gradle_dist_tar := arg_use_host_gradle_dist_tar args;
                          enable_report_auto_open := arg_enable_report_auto_open args;
                          docker_hub_username := arg_docker_hub_username args;
                          docker_hub_password := arg_docker_hub_password args;
                          s3_build_cache_access_key_id :=
                            arg_s3_build_cache_access_key_id args;
                          s3_build_cache_secret_key := arg_s3_build_cache_secret_key args;
                          concurrent_cat := arg_concurrent_cat args;
                          _connector_secrets := None;
                          is_ci := base_is_ci base;
                          slack_webhook := base_slack_webhook base;
                          reporting_slack_channel := base_reporting_slack_channel base;
                          report := base_report base;
                          state := base_state base;
                          stopped_at := base_stopped_at base |};
                     new_targeted_platforms := arg_targeted_platforms args;
                     super_kwargs := kwargs |},
                σ')
      end
  end.

End Constructor.

(** A base constructor for the examples: it keeps the notification target
    and starts without a report. *)
Definition example_base_init (kwargs : PipelineContextArgs) : outcome InheritedAttributes :=
  Return {| base_is_ci := negb (kw_is_local kwargs);
            base_slack_webhook := kw_slack_webhook kwargs;
            base_reporting_slack_channel := kw_reporting_slack_channel kwargs;
            base_report := None;
            base_state := INITIALIZED;
            base_stopped_at := None |}.

(** Arguments of a local run on [source_foo], with the options of
    [cli_heap]. *)
Definition local_run_args : ConnectorContextArgs :=
  {| arg_pipeline_name := "test";
     arg_connector := source_foo;
     arg_is_local := true;
     arg_git_branch := "main";
     arg_git_revision := "0123abc";
     arg_diffed_branch := "origin/master";
     arg_git_repo_url := "https://github.com/airbytehq/airbyte.git";
     arg_report_output_prefix := "reports";
     arg_use_remote_secrets := true;
     arg_ci_report_bucket := None;
     arg_ci_gcs_credentials := None;
     arg_ci_git_user := None;
     arg_ci_github_access_token := None;
     arg_connector_acceptance_test_image := "airbyte/connector-acceptance-test:dev";
     arg_gha_workflow_run_url := None;
     arg_dagger_logs_url := None;
     arg_pipeline_start_timestamp := None;
     arg_ci_context := None;
     arg_slack_webhook := None;
     arg_reporting_slack_channel := None;
     arg_pull_request := None;
     arg_should_save_report := true;
     arg_code_tests_only := false;
     arg_use_local_cdk := false;
     arg_use_host_gradle_dist_tar := false;
     arg_enable_report_auto_open := true;
     arg_docker_hub_username := Some "airbyte-ci";
     arg_docker_hub_password := None;
     arg_s3_build_cache_access_key_id := None;
     arg_s3_build_cache_secret_key := None;
     arg_concurrent_cat := false;
     arg_run_step_options := 1%positive;
     arg_targeted_platforms := [PlatformName "linux/amd64"; PlatformName "linux/arm64"] |}.

(** ["." if self.is_ci else "/tmp"] *)
Definition host_image_export_dir_path (self : ConnectorContext) : string :=
  if is_ci self then "." else "/tmp".




(** A formatter that is right on strings, which is all that the examples
    format. *)
Definition format_of_str (v : yaml) : string :=
  match v with
  | YStr s => s
  | _ => "<not a string>"
  end.

(** Two descriptors that list the unit and acceptance suites: in that
    order, and in another order with a repetition and a suite that the
    table does not know. *)
Definition unit_and_acceptance : yaml :=
  YMap [ (YStr "connectorTestSuitesOptions",
          YList [ YMap [ (YStr "suite", YStr "unitTests") ];
                  YMap [ (YStr "suite", YStr "acceptanceTests") ] ]) ].

Definition acceptance_live_unit_unit : yaml :=
  YMap [ (YStr "connectorTestSuitesOptions",
          YList [ YMap [ (YStr "suite", YStr "acceptanceTests") ];
                  YMap [ (YStr "suite", YStr "liveTests") ];
                  YMap [ (YStr "suite", YStr "unitTests") ];
                  YMap [ (YStr "suite", YStr "unitTests") ] ]) ].

(** Loaded values that [for] cannot iterate over. *)
Definition not_iterable (v : yaml) : bool :=
  match v with
  | YNull | YBool _ | YInt _ | YFloat _ => true
  | YStr _ | YList _ | YMap _ => false
  end.

(** A secret store that fails until it has been asked once: its state
    tells whether it has been asked before. *)
Definition flaky_store : Collaborators bool :=
  {| utcnow := λ e, (1700000000%Z, e);
     determine_final_state := final_state_of;
     github_commit_status := λ self, [("context", pipeline_name self)];
     secrets_get_connector_secrets := λ _ (asked : bool),
       (if asked then Return one_secret else Raise (ExternalError "ServiceUnavailable"),
        true);
     secrets_upload := λ _ e, (Return tt, e);
     report_print := λ _ e, (Return tt, e);
     report_save := λ _ e, (Return tt, e);
     update_commit_status_check := λ _ e, (Return tt, e);
     send_message_to_webhook := λ _ _ _ e, (Return tt, e) |}.

Definition first_asked (self : ConnectorContext) : World bool :=
  {| ctx := self; env := false; trace := [] |}.

(* ===================================================================== *)
(** * Properties *)
(* ===================================================================== *)

(** ** Step-skip policy *)

(** Membership in a list that is written out. *)
Ltac in_table :=
  repeat first [ apply list_elem_of_here | apply list_elem_of_further ].

Lemma str_eq_true s v : str_eq s v = true ↔ v = YStr s.
Proof.
  destruct v; simpl; try (split; [discriminate | congruence]).
  rewrite String.eqb_eq. split; congruence.
Qed.

Lemma str_in_true s xs : str_in s xs = true ↔ YStr s ∈ xs.
Proof.
  unfold str_in. rewrite existsb_exists. split.
  - intros (v & Hin & Heq). apply str_eq_true in Heq. subst v.
    by apply list_elem_of_In.
  - intros Hin. exists (YStr s). split; [by apply list_elem_of_In |].
    by apply str_eq_true.
Qed.

Lemma str_in_false s xs : str_in s xs = false ↔ YStr s ∉ xs.
Proof.
  rewrite <- str_in_true. destruct (str_in s xs); split; congruence.
Qed.

(** A comprehension over suite options returns the names they carry. *)
Lemma comprehension_suite_options options names :
  Forall2 suite_option options names →
  comprehension (λ option, py_getitem option "suite") options = Return names.
Proof.
  induction 1 as [| option name options names (entries & -> & Hlook) _ IH]; [done |].
  simpl. rewrite Hlook. simpl. by rewrite IH.
Qed.

Lemma enabled_test_suites_declared md names :
  declares_suites md names → enabled_test_suites md = Return names.
Proof.
  intros (entries & -> & Hopt). unfold enabled_test_suites. simpl.
  destruct (dict_lookup "connectorTestSuitesOptions" entries) as [[]|]; try done.
  - simpl. by apply comprehension_suite_options.
  - by subst names.
Qed.

(** Membership in the computed skip list. *)
Lemma elem_of_steps_not_in id enabled :
  id ∈ steps_not_in enabled ↔
  ∃ name, (name, id) ∈ TEST_SUITE_NAME_TO_STEP_ID ∧ YStr name ∉ enabled.
Proof.
  unfold steps_not_in. rewrite list_elem_of_fmap. split.
  - intros ([name id'] & -> & Hin). apply list_elem_of_In, filter_In in Hin.
    destruct Hin as [Hin Hnot]. exists name. split; [by apply list_elem_of_In |].
    apply str_in_false. simpl in Hnot. by destruct (str_in name enabled).
  - intros (name & Hin & Hnot). exists (name, id). split; [done |].
    apply list_elem_of_In, filter_In. split; [by apply list_elem_of_In |].
    simpl. apply str_in_false in Hnot. by rewrite Hnot.
Qed.

Lemma steps_not_in_NoDup enabled : NoDup (steps_not_in enabled).
Proof.
  unfold steps_not_in, TEST_SUITE_NAME_TO_STEP_ID. simpl.
  destruct (str_in "unitTests" enabled), (str_in "integrationTests" enabled),
    (str_in "acceptanceTests" enabled); simpl; compute_done.
Qed.

Lemma steps_not_in_none_listed enabled :
  (∀ name id, (name, id) ∈ TEST_SUITE_NAME_TO_STEP_ID → YStr name ∉ enabled) →
  steps_not_in enabled = recognized_step_ids.
Proof.
  intros Hnone.
  assert (∀ name id, (name, id) ∈ TEST_SUITE_NAME_TO_STEP_ID →
            str_in name enabled = false) as Hb.
  { intros name id Hn. apply str_in_false. by eapply Hnone. }
  unfold steps_not_in, TEST_SUITE_NAME_TO_STEP_ID in *. simpl.
  by rewrite (Hb "unitTests" UNIT), (Hb "integrationTests" INTEGRATION),
    (Hb "acceptanceTests" ACCEPTANCE) by in_table.
Qed.

Lemma steps_not_in_one_listed enabled suite id :
  (suite, id) ∈ TEST_SUITE_NAME_TO_STEP_ID →
  (∀ name id', (name, id') ∈ TEST_SUITE_NAME_TO_STEP_ID →
     YStr name ∈ enabled ↔ name = suite) →
  steps_not_in enabled =
    List.filter (λ id', bool_decide (id' ≠ id)) recognized_step_ids.
Proof.
  intros Hin Hone.
  assert (∀ name id', (name, id') ∈ TEST_SUITE_NAME_TO_STEP_ID →
            str_in name enabled = bool_decide (name = suite)) as Hb.
  { intros name id' Hn. apply Hone in Hn. case_bool_decide as Hd.
    - by apply str_in_true, Hn.
    - apply str_in_false. by rewrite Hn. }
  unfold steps_not_in, TEST_SUITE_NAME_TO_STEP_ID in *. simpl.
  rewrite (Hb "unitTests" UNIT), (Hb "integrationTests" INTEGRATION),
    (Hb "acceptanceTests" ACCEPTANCE) by in_table.
  apply elem_of_cons in Hin as [[= -> ->] | Hin]; [done |].
  apply elem_of_cons in Hin as [[= -> ->] | Hin]; [done |].
  apply list_elem_of_singleton in Hin as [= -> ->]. done.
Qed.

(** C1.  For every metadata value that the accessor returns and that lists
    suite names as the data model says (an optional list of suite options),
    the step-skip policy returns the step identifiers of the recognized
    suites whose name is not listed: every identifier in the result comes
    from an unlisted recognized suite and every unlisted recognized suite
    contributes its identifier, once.  When [connectorTestSuitesOptions] is
    absent or the empty list, the result is the three recognized
    identifiers; when exactly one recognized suite is listed, it is the
    other two. *)
Theorem step_id_to_skip_exact
    (METADATA_FILE_NAME : string) (safe_load : string → outcome yaml)
    (fs : gmap path fs_node) (connector : ConnectorWithModifiedFiles)
    (md : yaml) (names : list yaml) :
  metadata METADATA_FILE_NAME safe_load fs connector = Return md →
  declares_suites md names →
  ∃ skipped,
    _get_step_id_to_skip_according_to_metadata
      METADATA_FILE_NAME safe_load fs connector = Return skipped ∧
    NoDup skipped ∧
    (∀ id, id ∈ skipped ↔
       ∃ name, (name, id) ∈ TEST_SUITE_NAME_TO_STEP_ID ∧ YStr name ∉ names) ∧
    (∀ entries, md = YMap entries →
       dict_lookup "connectorTestSuitesOptions" entries = None ∨
       dict_lookup "connectorTestSuitesOptions" entries = Some (YList []) →
       skipped = [UNIT; INTEGRATION; ACCEPTANCE]) ∧
    (∀ suite id, (suite, id) ∈ TEST_SUITE_NAME_TO_STEP_ID →
       (∀ name id', (name, id') ∈ TEST_SUITE_NAME_TO_STEP_ID →
          YStr name ∈ names ↔ name = suite) →
       skipped = List.filter (λ id', bool_decide (id' ≠ id)) recognized_step_ids).
Proof.
  intros Hmd Hdecl. exists (steps_not_in names).
  unfold _get_step_id_to_skip_according_to_metadata, step_id_to_skip_of.
  rewrite Hmd. simpl. rewrite (enabled_test_suites_declared _ _ Hdecl). simpl.
  split; [done |]. split; [apply steps_not_in_NoDup |].
  split; [intros id; apply elem_of_steps_not_in |]. split.
  - intros entries -> Habsent.
    assert (names = []) as ->; [| done].
    destruct Hdecl as (entries' & [= <-] & Hopt).
    destruct Habsent as [Hnone | Hempty].
    + by rewrite Hnone in Hopt.
    + rewrite Hempty in Hopt. by inversion Hopt.
  - intros suite id. apply steps_not_in_one_listed.
Qed.

Lemma step_id_to_skip_exact_witness :
  metadata "metadata.yaml" (load_as (Some (YMap [(YStr "data", source_foo_data unit_tests_only)])))
    source_foo_fs source_foo = Return (source_foo_data unit_tests_only) ∧
  declares_suites (source_foo_data unit_tests_only) [YStr "unitTests"] ∧
  _get_step_id_to_skip_according_to_metadata "metadata.yaml"
    (load_as (Some (YMap [(YStr "data", source_foo_data unit_tests_only)])))
    source_foo_fs source_foo = Return [INTEGRATION; ACCEPTANCE].
Proof.
  assert (declares_suites (source_foo_data unit_tests_only) [YStr "unitTests"]) as Hdecl.
  { eexists. split; [reflexivity |]. simpl.
    constructor; [| constructor]. eexists. split; reflexivity. }
  assert (metadata "metadata.yaml"
            (load_as (Some (YMap [(YStr "data", source_foo_data unit_tests_only)])))
            source_foo_fs source_foo = Return (source_foo_data unit_tests_only)) as Hmd.
  { vm_compute. reflexivity. }
  split; [exact Hmd |]. split; [exact Hdecl |].
  destruct (step_id_to_skip_exact _ _ _ _ _ _ Hmd Hdecl)
    as (skipped & -> & _ & _ & _ & Hone).
  f_equal. apply (Hone "unitTests" UNIT); [in_table |].
  intros name id' Hin. rewrite list_elem_of_singleton. split; congruence.
Defined.

(** ** Metadata accessor *)

Lemma first_failure_None fs p qs :
  first_failure fs p qs = None ↔ ∀ q, q ∈ qs → searchable_node (fs !! q).
Proof.
  induction qs as [| q qs IH]; simpl.
  { split; [intros _ q Hq; by apply elem_of_nil in Hq | done]. }
  unfold search_through at 1, searchable_node.
  destruct (fs !! q) as [[text | | on_read [e |]] |] eqn:Hq.
  - split; [done |]. intros Hall.
    destruct (Hall q) as [? | [? | [? ?]]]; [apply list_elem_of_here | congruence..].
  - rewrite IH. split.
    + intros Hall q' Hq'. apply elem_of_cons in Hq' as [-> | Hq'];
        [rewrite Hq; by right; left | by apply Hall].
    + intros Hall q' Hq'. apply Hall. by apply list_elem_of_further.
  - split; [done |]. intros Hall.
    destruct (Hall q) as [? | [? | [? ?]]]; [apply list_elem_of_here | congruence..].
  - rewrite IH. split.
    + intros Hall q' Hq'. apply elem_of_cons in Hq' as [-> | Hq'];
        [rewrite Hq; right; right; by eexists | by apply Hall].
    + intros Hall q' Hq'. apply Hall. by apply list_elem_of_further.
  - rewrite IH. split.
    + intros Hall q' Hq'. apply elem_of_cons in Hq' as [-> | Hq'];
        [rewrite Hq; by left | by apply Hall].
    + intros Hall q' Hq'. apply Hall. by apply list_elem_of_further.
Qed.

Lemma first_failure_app fs p qs qs' :
  first_failure fs p (qs ++ qs') =
    match first_failure fs p qs with
    | Some e => Some e
    | None => first_failure fs p qs'
    end.
Proof.
  induction qs as [| q qs IH]; simpl; [done |].
  by destruct (search_through fs p q).
Qed.

Lemma ancestors_below_snoc above p name :
  p ≠ [] →
  ancestors_below above (p ++ [name]) = ancestors_below above p ++ [above ++ p].
Proof.
  revert above. induction p as [| x p IH]; intros above Hp; [done |].
  destruct p as [| y p].
  - simpl. done.
  - change ((x :: y :: p) ++ [name]) with (x :: ((y :: p) ++ [name])).
    change (ancestors_below above (x :: (y :: p) ++ [name]))
      with ((above ++ [x]) :: ancestors_below (above ++ [x]) ((y :: p) ++ [name])).
    rewrite IH by done.
    change (ancestors_below above (x :: y :: p))
      with ((above ++ [x]) :: ancestors_below (above ++ [x]) (y :: p)).
    by rewrite <- (app_assoc above [x] (y :: p)).
Qed.

Lemma ancestors_snoc p name :
  p ≠ [] → ancestors (p ++ [name]) = ancestors p ++ [p].
Proof. intros Hp. unfold ancestors. by rewrite ancestors_below_snoc. Qed.

Lemma searchable_empty p : searchable ∅ p.
Proof. intros q _. left. apply lookup_empty. Qed.

Section MetadataAccessor.

Variable METADATA_FILE_NAME : string.
Variable safe_load : string → outcome yaml.
Variable fs : gmap path fs_node.
Variable connector : ConnectorWithModifiedFiles.

Let accessor := metadata METADATA_FILE_NAME safe_load fs connector.
Let descriptor := metadata_path METADATA_FILE_NAME connector.

Lemma read_text_searchable p :
  searchable fs p →
  read_text fs p =
    match fs !! p with
    | None => Raise (FileNotFoundError p)
    | Some FsDir => Raise (IsADirectoryError p)
    | Some (FsFile text) => Return text
    | Some (FsSpecial on_read _) => Raise on_read
    end.
Proof.
  intros Hsearch. unfold read_text.
  by rewrite (proj2 (first_failure_None fs p (ancestors p)) Hsearch).
Qed.

Lemma read_text_returns_inv p text :
  read_text fs p = Return text →
  searchable fs p ∧ fs !! p = Some (FsFile text).
Proof.
  unfold read_text.
  destruct (first_failure fs p (ancestors p)) as [e |] eqn:Hsearch; [done |].
  pose proof (proj1 (first_failure_None fs p (ancestors p)) Hsearch) as Hpass.
  destruct (fs !! p) as [[] |]; intros ?; by simplify_eq.
Qed.

Lemma metadata_absent :
  searchable fs descriptor → fs !! descriptor = None →
  accessor = Raise (FileNotFoundError descriptor).
Proof.
  intros Hsearch Hnone. unfold accessor, metadata. fold descriptor.
  rewrite read_text_searchable by done. by rewrite Hnone.
Qed.

Lemma metadata_unreadable e :
  read_text fs descriptor = Raise e → accessor = Raise e.
Proof.
  intros Hread. unfold accessor, metadata. fold descriptor. by rewrite Hread.
Qed.

Lemma metadata_malformed text e :
  searchable fs descriptor → fs !! descriptor = Some (FsFile text) →
  safe_load text = Raise e →
  accessor = Raise e.
Proof.
  intros Hsearch Hfile Hbad. unfold accessor, metadata, yaml_safe_load.
  fold descriptor. rewrite read_text_searchable by done.
  rewrite Hfile. simpl. by rewrite Hbad.
Qed.

Lemma metadata_loaded text doc :
  searchable fs descriptor → fs !! descriptor = Some (FsFile text) →
  safe_load text = Return doc →
  accessor = py_getitem doc "data".
Proof.
  intros Hsearch Hfile Hdoc. unfold accessor, metadata, yaml_safe_load.
  fold descriptor. rewrite read_text_searchable by done.
  rewrite Hfile. simpl. by rewrite Hdoc.
Qed.

(** The accessor returns only through the last subscript. *)
Lemma metadata_returns_inv v :
  accessor = Return v →
  searchable fs descriptor ∧
  ∃ text entries,
    fs !! descriptor = Some (FsFile text) ∧
    safe_load text = Return (YMap entries) ∧
    dict_lookup "data" entries = Some v.
Proof.
  unfold accessor, metadata, yaml_safe_load. fold descriptor.
  destruct (read_text fs descriptor) as [text | e] eqn:Hread; simpl; [| done].
  apply read_text_returns_inv in Hread as [Hsearch Hfile].
  destruct (safe_load text) as [doc | e] eqn:Hdoc; simpl; try discriminate.
  destruct doc; simpl; try discriminate.
  destruct (dict_lookup "data" entries) eqn:Hdata; [| discriminate].
  intros [= ->]. split; [done |]. by exists text, entries.
Qed.

(** A regular file where the connector directory should be. *)
Lemma metadata_directory_is_a_file text :
  code_directory connector ≠ [] →
  searchable fs (code_directory connector) →
  fs !! code_directory connector = Some (FsFile text) →
  accessor = Raise (NotADirectoryError descriptor).
Proof.
  intros Hdir Hsearch Hfile. apply metadata_unreadable.
  unfold read_text, descriptor, metadata_path.
  rewrite ancestors_snoc by done.
  rewrite first_failure_app.
  rewrite (proj2 (first_failure_None fs _ (ancestors (code_directory connector))) Hsearch).
  simpl. unfold search_through. by rewrite Hfile.
Qed.

End MetadataAccessor.

Lemma fails_with_classes {A} e cls :
  fails_with (A := A) (Raise e) cls ↔ cls ∈ exception_classes e.
Proof.
  split.
  - by intros (e' & [= <-] & Hin).
  - intros Hin. by exists e.
Qed.

(** C8, as the code has it.  The accessor declares no error kind of its
    own: it lets the errors of its three steps through.  When every
    directory above the descriptor can be searched, an absent descriptor
    fails with [FileNotFoundError]; a regular file in place of the connector
    directory fails with [NotADirectoryError], and a descriptor that cannot
    be read as text fails with the exception of the read.  A text that the
    parser rejects fails with the exception of the parser (a [YAMLError], or
    what a constructor of the parser raises).  A mapping without the [data]
    key fails with [KeyError], a document that is not a mapping with
    [TypeError].  The accessor returns exactly when the document is a
    mapping with a [data] entry, and then returns the value of that entry,
    whatever it is. *)
Theorem metadata_outcomes
    (METADATA_FILE_NAME : string) (safe_load : string → outcome yaml)
    (fs : gmap path fs_node) (connector : ConnectorWithModifiedFiles) :
  let accessor := metadata METADATA_FILE_NAME safe_load fs connector in
  let descriptor := metadata_path METADATA_FILE_NAME connector in
  (searchable fs descriptor → fs !! descriptor = None →
     fails_with accessor "FileNotFoundError") ∧
  (∀ text, code_directory connector ≠ [] →
     searchable fs (code_directory connector) →
     fs !! code_directory connector = Some (FsFile text) →
     fails_with accessor "NotADirectoryError") ∧
  (∀ e, read_text fs descriptor = Raise e → accessor = Raise e) ∧
  (∀ text e, searchable fs descriptor → fs !! descriptor = Some (FsFile text) →
     safe_load text = Raise e →
     accessor = Raise e) ∧
  (∀ text entries, searchable fs descriptor → fs !! descriptor = Some (FsFile text) →
     safe_load text = Return (YMap entries) → dict_lookup "data" entries = None →
     fails_with accessor "KeyError") ∧
  (∀ text doc, searchable fs descriptor → fs !! descriptor = Some (FsFile text) →
     safe_load text = Return doc → is_mapping doc = false →
     fails_with accessor "TypeError") ∧
  (∀ v, accessor = Return v ↔
     searchable fs descriptor ∧
     ∃ text entries, fs !! descriptor = Some (FsFile text) ∧
       safe_load text = Return (YMap entries) ∧
       dict_lookup "data" entries = Some v).
Proof.
  intros accessor descriptor.
  split; [| split; [| split; [| split; [| split; [| split; [| split]]]]]].
  - intros Hsearch Habsent. unfold accessor. rewrite metadata_absent by done.
    apply fails_with_classes. simpl. in_table.
  - intros text Hdir Hsearch Hfile. unfold accessor.
    rewrite (metadata_directory_is_a_file _ _ _ _ text) by done.
    apply fails_with_classes. simpl. in_table.
  - intros e Hread. by apply metadata_unreadable.
  - intros text e Hsearch Hfile Hbad. by apply (metadata_malformed _ _ _ _ text).
  - intros text entries Hsearch Hfile Hdoc Hdata. unfold accessor.
    rewrite (metadata_loaded _ _ _ _ text (YMap entries)) by done.
    simpl. rewrite Hdata. apply fails_with_classes. simpl. in_table.
  - intros text doc Hsearch Hfile Hdoc Hshape. unfold accessor.
    rewrite (metadata_loaded _ _ _ _ text doc) by done.
    destruct doc; try discriminate; apply fails_with_classes; simpl; in_table.
  - apply metadata_returns_inv.
  - intros (Hsearch & text & entries & Hfile & Hdoc & Hdata). unfold accessor.
    rewrite (metadata_loaded _ _ _ _ text (YMap entries)) by done.
    simpl. by rewrite Hdata.
Qed.

Lemma metadata_outcomes_witness :
  searchable ∅ (metadata_path "metadata.yaml" source_foo) ∧
  (∅ : gmap path fs_node) !! metadata_path "metadata.yaml" source_foo = None ∧
  fails_with (metadata "metadata.yaml" (load_as None) ∅ source_foo) "FileNotFoundError".
Proof.
  split; [apply searchable_empty |]. split; [apply lookup_empty |].
  apply (metadata_outcomes "metadata.yaml" (load_as None) ∅ source_foo).
  - apply searchable_empty.
  - apply lookup_empty.
Defined.

(** C8 as stated fails on each of its three parts: an absent descriptor
    does not fail with a [MetadataNotFound], a rejected document does not
    fail with a [MetadataParseError], and a descriptor whose [data] entry is
    the integer 3 makes the accessor return 3, which is no mapping. *)
Lemma metadata_error_kinds_counterexample :
  ¬ (∀ METADATA_FILE_NAME safe_load fs connector,
       fs !! metadata_path METADATA_FILE_NAME connector = None →
       fails_with (metadata METADATA_FILE_NAME safe_load fs connector)
         "MetadataNotFound") ∧
  ¬ (∀ METADATA_FILE_NAME safe_load fs connector text,
       fs !! metadata_path METADATA_FILE_NAME connector = Some (FsFile text) →
       returns (safe_load text) = false →
       fails_with (metadata METADATA_FILE_NAME safe_load fs connector)
         "MetadataParseError") ∧
  ¬ (∀ METADATA_FILE_NAME safe_load fs connector v,
       metadata METADATA_FILE_NAME safe_load fs connector = Return v →
       is_mapping v = true).
Proof.
  split; [| split].
  - intros Hclaim.
    destruct (Hclaim "metadata.yaml" (load_as None) ∅ source_foo (lookup_empty _))
      as (e & Hraise & Hin).
    rewrite metadata_absent in Hraise by (apply searchable_empty || apply lookup_empty).
    injection Hraise as <-. apply list_elem_of_In in Hin. simpl in Hin.
    intuition discriminate.
  - intros Hclaim.
    destruct (Hclaim "metadata.yaml" (load_as None) source_foo_fs source_foo
                "descriptor of source-foo") as (e & Hraise & Hin); [done.. |].
    vm_compute in Hraise. injection Hraise as <-.
    apply list_elem_of_In in Hin. simpl in Hin. intuition discriminate.
  - intros Hclaim.
    specialize (Hclaim "metadata.yaml"
                  (load_as (Some (YMap [(YStr "data", YInt 3)])))
                  source_foo_fs source_foo (YInt 3)).
    discriminate Hclaim. vm_compute. reflexivity.
Qed.

(** ** Credential accessors *)

Lemma truthy_Some s : truthy (Some s) = true ↔ s ≠ "".
Proof.
  simpl. destruct (String.eqb_spec s ""); simpl; split; congruence.
Qed.

Lemma truthy_empty : truthy (Some "") = false.
Proof. reflexivity. Qed.

(** C6, as the code has it.  The accessor tests the truth value of both
    fields: it returns no secret whenever either field is unset or is the
    empty string (in particular when only the access key is set), and a
    handle named [s3_build_cache_secret_key] that wraps the secret key when
    both fields are set to non-empty strings. *)
Theorem s3_build_cache_secret_key_secret_cases (self : ConnectorContext) :
  (s3_build_cache_access_key_id self = None ∨ s3_build_cache_secret_key self = None →
     s3_build_cache_secret_key_secret self = None) ∧
  (s3_build_cache_access_key_id self = Some "" ∨ s3_build_cache_secret_key self = Some "" →
     s3_build_cache_secret_key_secret self = None) ∧
  (∀ key_id key,
     s3_build_cache_access_key_id self = Some key_id →
     s3_build_cache_secret_key self = Some key →
     key_id ≠ "" → key ≠ "" →
     s3_build_cache_secret_key_secret self =
       Some (set_secret "s3_build_cache_secret_key" key)).
Proof.
  unfold s3_build_cache_secret_key_secret. repeat split.
  - intros [-> | ->]; simpl; [done |]. by rewrite andb_false_r.
  - intros [-> | ->]; simpl; [done |]. by rewrite andb_false_r.
  - intros key_id key -> -> Hid Hkey.
    by rewrite (proj2 (truthy_Some key_id) Hid), (proj2 (truthy_Some key) Hkey).
Qed.

Lemma s3_build_cache_secret_key_secret_cases_witness :
  s3_build_cache_secret_key_secret
    (new_context (Some "AKIA") None None None None None None) = None ∧
  s3_build_cache_secret_key_secret
    (new_context (Some "AKIA") (Some "s3cr3t") None None None None None) =
    Some (set_secret "s3_build_cache_secret_key" "s3cr3t").
Proof.
  split.
  - apply (proj1 (s3_build_cache_secret_key_secret_cases
                    (new_context (Some "AKIA") None None None None None None))).
    right. reflexivity.
  - apply (proj2 (proj2 (s3_build_cache_secret_key_secret_cases
                    (new_context (Some "AKIA") (Some "s3cr3t") None None None None None))))
      with (key_id := "AKIA"); [reflexivity | reflexivity | discriminate..].
Defined.

(** C6 as stated fails when both fields are set and one of them is the
    empty string: no handle is returned. *)
Lemma s3_build_cache_secret_key_secret_counterexample :
  s3_build_cache_access_key_id
    (new_context (Some "") (Some "s3cr3t") None None None None None) = Some "" ∧
  s3_build_cache_secret_key
    (new_context (Some "") (Some "s3cr3t") None None None None None) = Some "s3cr3t" ∧
  s3_build_cache_secret_key_secret
    (new_context (Some "") (Some "s3cr3t") None None None None None) = None ∧
  ¬ (∀ self key_id key,
       s3_build_cache_access_key_id self = Some key_id →
       s3_build_cache_secret_key self = Some key →
       s3_build_cache_secret_key_secret self =
         Some (set_secret "s3_build_cache_secret_key" key)).
Proof.
  repeat split.
  intros Hclaim.
  by specialize (Hclaim (new_context (Some "") (Some "s3cr3t") None None None None None)
                   "" "s3cr3t" eq_refl eq_refl).
Qed.

(** C9.  An empty-string credential is treated differently by the two
    families of accessors: the build-cache accessors test the truth value of
    the field and return no secret for [""], the Docker Hub accessors test
    for [None] only and return a handle that wraps [""]. *)
Theorem empty_credential_inconsistency (self : ConnectorContext) :
  (s3_build_cache_access_key_id self = Some "" →
     s3_build_cache_access_key_id_secret self = None) ∧
  (s3_build_cache_secret_key self = Some "" →
     s3_build_cache_secret_key_secret self = None) ∧
  (docker_hub_username self = Some "" →
     docker_hub_username_secret self = Some (set_secret "docker_hub_username" "")) ∧
  (docker_hub_password self = Some "" →
     docker_hub_password_secret self = Some (set_secret "docker_hub_password" "")) ∧
  (docker_hub_username_secret self = None ↔ docker_hub_username self = None) ∧
  (docker_hub_password_secret self = None ↔ docker_hub_password self = None).
Proof.
  unfold s3_build_cache_access_key_id_secret, s3_build_cache_secret_key_secret,
    docker_hub_username_secret, docker_hub_password_secret.
  repeat split; try (intros ->; simpl; by rewrite ?andb_false_r).
  - by destruct (docker_hub_username self).
  - by destruct (docker_hub_password self).
Qed.

Lemma empty_credential_inconsistency_witness :
  let self := new_context (Some "") (Some "") (Some "") (Some "") None None None in
  s3_build_cache_access_key_id_secret self = None ∧
  s3_build_cache_secret_key_secret self = None ∧
  docker_hub_username_secret self = Some (set_secret "docker_hub_username" "") ∧
  docker_hub_password_secret self = Some (set_secret "docker_hub_password" "").
Proof.
  intros self.
  destruct (empty_credential_inconsistency self) as (Hid & Hkey & Huser & Hpass & _).
  split; [apply Hid; reflexivity |].
  split; [apply Hkey; reflexivity |].
  split; [apply Huser; reflexivity | apply Hpass; reflexivity].
Defined.

(** ** Applying the policy to run-step options *)

Lemma alloc_fresh o σ l σ' :
  alloc o σ = (l, σ') → σ !! l = None ∧ σ' = <[l := o]> σ.
Proof.
  unfold alloc. intros [= <- <-]. split; [| done].
  apply not_elem_of_dom, is_fresh.
Qed.

Lemma insert_fresh_preserves (σ : gmap loc obj) l o k v :
  σ !! l = None → σ !! k = Some v → <[l := o]> σ !! k = Some v.
Proof.
  intros Hfresh Hk. rewrite lookup_insert_ne; [done |]. congruence.
Qed.

(** [deepcopy] of an options object: two new objects, nothing else touched. *)
Lemma deepcopy_options l σ o xs :
  σ !! l = Some (ObjRunStepOptions o) →
  σ !! skip_steps o = Some (ObjList xs) →
  ∃ l_items l_copy,
    σ !! l_items = None ∧ σ !! l_copy = None ∧ l_items ≠ l_copy ∧
    deepcopy l σ =
      Some (l_copy,
            <[l_copy := ObjRunStepOptions (with_skip_steps l_items o)]>
              (<[l_items := ObjList xs]> σ)).
Proof.
  intros Hl Hxs. unfold deepcopy. rewrite Hl, Hxs.
  destruct (alloc (ObjList xs) σ) as [l_items σ1] eqn:H1.
  destruct (alloc (ObjRunStepOptions (with_skip_steps l_items o)) σ1)
    as [l_copy σ2] eqn:H2.
  apply alloc_fresh in H1 as [Hf1 ->]. apply alloc_fresh in H2 as [Hf2 ->].
  exists l_items, l_copy.
  assert (l_items ≠ l_copy) as Hne.
  { intros <-. by rewrite lookup_insert_eq in Hf2. }
  repeat split; try done.
  by rewrite lookup_insert_ne in Hf2.
Qed.

(** C5.  Applied to options at [l] whose skip list holds [xs], the method
    returns a new options object, distinct from every object that existed
    before the call, whose skip list is [xs] followed by the computed skip
    list, duplicates included, and whose other settings are those of the
    input; every object that existed before the call, the input options and
    their list among them, is unchanged.  When the policy raises, the
    exception propagates and the existing objects are unchanged as well. *)
Theorem skip_metadata_disabled_test_suites_copies
    (METADATA_FILE_NAME : string) (safe_load : string → outcome yaml)
    (fs : gmap path fs_node) (connector : ConnectorWithModifiedFiles)
    (l : loc) (σ : gmap loc obj) (o : RunStepOptions)
    (xs : list CONNECTOR_TEST_STEP_ID) :
  σ !! l = Some (ObjRunStepOptions o) →
  σ !! skip_steps o = Some (ObjList xs) →
  ∃ r σ',
    _skip_metadata_disabled_test_suites
      METADATA_FILE_NAME safe_load fs connector l σ = Some (r, σ') ∧
    (∀ k v, σ !! k = Some v → σ' !! k = Some v) ∧
    skip_list_at l σ' = Some xs ∧
    match _get_step_id_to_skip_according_to_metadata
            METADATA_FILE_NAME safe_load fs connector with
    | Raise e => r = Raise e
    | Return to_skip =>
        ∃ l' o',
          r = Return l' ∧ l' ≠ l ∧ σ !! l' = None ∧
          σ' !! l' = Some (ObjRunStepOptions o') ∧
          σ !! skip_steps o' = None ∧
          skip_list_at l' σ' = Some (xs ++ to_skip) ∧
          fail_fast o' = fail_fast o ∧ log_step_tree o' = log_step_tree o ∧
          concurrency o' = concurrency o
    end.
Proof.
  intros Hl Hxs.
  destruct (deepcopy_options l σ o xs Hl Hxs)
    as (l_items & l_copy & Hf1 & Hf2 & Hne & Hcopy).
  unfold _skip_metadata_disabled_test_suites. rewrite Hcopy. simpl.
  unfold getattr_skip_steps. rewrite lookup_insert_eq. simpl.
  set (σ2 := <[l_copy := _]> _).
  assert (∀ k v, σ !! k = Some v → σ2 !! k = Some v) as Hframe2.
  { intros k v Hk. unfold σ2. rewrite !lookup_insert_ne; congruence. }
  assert (skip_list_at l σ2 = Some xs) as Hskip2.
  { unfold skip_list_at. by rewrite (Hframe2 _ _ Hl), (Hframe2 _ _ Hxs). }
  destruct (_get_step_id_to_skip_according_to_metadata _ _ _ _) as [to_skip | e].
  2: { by exists (Raise e), σ2. }
  unfold list_iadd.
  assert (σ2 !! l_items = Some (ObjList xs)) as ->.
  { unfold σ2. rewrite lookup_insert_ne by done. apply lookup_insert_eq. }
  simpl. unfold setattr_skip_steps.
  rewrite lookup_insert_ne by done. unfold σ2 at 1. rewrite lookup_insert_eq. simpl.
  set (σ4 := <[l_copy := _]> _).
  assert (∀ k v, σ !! k = Some v → σ4 !! k = Some v) as Hframe4.
  { intros k v Hk. unfold σ4. rewrite !lookup_insert_ne by congruence. by apply Hframe2. }
  exists (Return l_copy), σ4. repeat split; try done.
  { unfold skip_list_at. by rewrite (Hframe4 _ _ Hl), (Hframe4 _ _ Hxs). }
  exists l_copy, (with_skip_steps l_items (with_skip_steps l_items o)).
  repeat split; try done.
  - congruence.
  - unfold σ4. apply lookup_insert_eq.
  - unfold skip_list_at, σ4. rewrite lookup_insert_eq. simpl.
    rewrite lookup_insert_ne by done. by rewrite lookup_insert_eq.
Qed.

Lemma skip_metadata_disabled_test_suites_copies_witness :
  cli_heap !! 1%positive = Some (ObjRunStepOptions cli_options) ∧
  cli_heap !! skip_steps cli_options = Some (ObjList [OTHER_STEP "qa_checks"; UNIT]) ∧
  ∃ r σ',
    _skip_metadata_disabled_test_suites "metadata.yaml"
      (load_as (Some (YMap [(YStr "data", source_foo_data acceptance_tests_only)])))
      source_foo_fs source_foo 1%positive cli_heap = Some (r, σ') ∧
    skip_list_at 1%positive σ' = Some [OTHER_STEP "qa_checks"; UNIT] ∧
    ∃ l', r = Return l' ∧ l' ≠ 1%positive ∧
      skip_list_at l' σ' = Some [OTHER_STEP "qa_checks"; UNIT; UNIT; INTEGRATION].
Proof.
  assert (cli_heap !! 1%positive = Some (ObjRunStepOptions cli_options)) as Hl
    by reflexivity.
  assert (cli_heap !! skip_steps cli_options
          = Some (ObjList [OTHER_STEP "qa_checks"; UNIT])) as Hxs by reflexivity.
  split; [exact Hl |]. split; [exact Hxs |].
  destruct (skip_metadata_disabled_test_suites_copies "metadata.yaml"
              (load_as (Some (YMap [(YStr "data", source_foo_data acceptance_tests_only)])))
              source_foo_fs source_foo _ _ _ _ Hl Hxs)
    as (r & σ' & Hcall & _ & Hold & Hnew).
  exists r, σ'. split; [exact Hcall |]. split; [exact Hold |].
  change (_get_step_id_to_skip_according_to_metadata _ _ _ _)
    with (Return (A := list CONNECTOR_TEST_STEP_ID) [UNIT; INTEGRATION]) in Hnew.
  destruct Hnew as (l' & o' & Hr & Hne & _ & _ & _ & Hlist & _).
  exists l'. split; [exact Hr |]. split; [exact Hne | exact Hlist].
Defined.

(** ** Teardown *)

Lemma should_send_slack_message_set_state v c :
  should_send_slack_message (set_state v c) = should_send_slack_message c.
Proof. reflexivity. Qed.

Lemma should_send_slack_message_set_stopped_at v c :
  should_send_slack_message (set_stopped_at v c) = should_send_slack_message c.
Proof. reflexivity. Qed.

Lemma should_send_slack_message_set_report v c :
  should_send_slack_message (set_report v c) = should_send_slack_message c.
Proof. reflexivity. Qed.

Lemma should_save_updated_secrets_set_state v c :
  should_save_updated_secrets (set_state v c) = should_save_updated_secrets c.
Proof. reflexivity. Qed.

Lemma should_save_updated_secrets_set_stopped_at v c :
  should_save_updated_secrets (set_stopped_at v c) = should_save_updated_secrets c.
Proof. reflexivity. Qed.

Lemma should_save_updated_secrets_set_report v c :
  should_save_updated_secrets (set_report v c) = should_save_updated_secrets c.
Proof. reflexivity. Qed.

Ltac unfold_M :=
  unfold async_with, __aexit__, get_connector_secrets, when, logger_error, emit,
    external, lift, update_self, get_self, mbind, M_bind, mret, M_ret.

(** Case analysis on every call that the teardown makes, in order. *)
Ltac case_calls :=
  repeat (simpl in *;
    match goal with
    | H : report ?s = _ |- context [report ?s] => rewrite H
    | |- context [should_send_slack_message (set_state _ _)] =>
        rewrite should_send_slack_message_set_state
    | |- context [should_send_slack_message (set_stopped_at _ _)] =>
        rewrite should_send_slack_message_set_stopped_at
    | |- context [should_send_slack_message (set_report _ _)] =>
        rewrite should_send_slack_message_set_report
    | |- context [should_save_updated_secrets (set_state _ _)] =>
        rewrite should_save_updated_secrets_set_state
    | |- context [should_save_updated_secrets (set_stopped_at _ _)] =>
        rewrite should_save_updated_secrets_set_stopped_at
    | |- context [should_save_updated_secrets (set_report _ _)] =>
        rewrite should_save_updated_secrets_set_report
    | H : ?b = _ |- context [if ?b then _ else _] => rewrite H
    | |- context [utcnow ?c ?e] => destruct (utcnow c e) as [? ?] eqn:?
    | |- context [secrets_upload ?c ?s ?e] =>
        destruct (secrets_upload c s e) as [[[] |?] ?] eqn:?
    | |- context [report_print ?c ?s ?e] =>
        destruct (report_print c s e) as [[[] |?] ?] eqn:?
    | |- context [report_save ?c ?s ?e] =>
        destruct (report_save c s e) as [[[] |?] ?] eqn:?
    | |- context [update_commit_status_check ?c ?s ?e] =>
        destruct (update_commit_status_check c s e) as [[[] |?] ?] eqn:?
    | |- context [send_message_to_webhook ?c ?m ?ch ?h ?e] =>
        destruct (send_message_to_webhook c m ch h e) as [[[] |?] ?] eqn:?
    | |- context [if ?b then _ else _] => destruct b eqn:?
    | |- context [match ?x with Return _ => _ | Raise _ => _ end] => destruct x eqn:?
    end).

(** The events added to a trace that was extended on the right. *)
Ltac new_events_of :=
  unfold new_events; simpl; rewrite <- ?app_assoc; simpl;
  first [ rewrite drop_app_length | rewrite <- (app_nil_r (trace _)) at 1 ].






Section Teardown.

Context {Env : Type}.
Variable collab : Collaborators Env.
Variable slack_message : ConnectorContext → outcome string.






End Teardown.

(** ** Connector secrets *)

Section ConnectorSecrets.

Context {Env : Type}.
Variable collab : Collaborators Env.








End ConnectorSecrets.

(** ** The properties at concrete runs *)









(** ** What a teardown does *)



Lemma should_save_updated_secrets_true c :
  should_save_updated_secrets c = true ↔
  use_remote_secrets c = true ∧ _updated_secrets_dir c ≠ None.
Proof.
  unfold should_save_updated_secrets, updated_secrets_dir.
  rewrite andb_true_iff, bool_decide_eq_true. done.
Qed.

Lemma should_send_slack_message_true c :
  should_send_slack_message c = true ↔
  slack_webhook c ≠ None ∧ reporting_slack_channel c ≠ None.
Proof.
  unfold should_send_slack_message.
  rewrite andb_true_iff, !bool_decide_eq_true. done.
Qed.

(** Membership of an event in a list that is written out. *)
Ltac event_in :=
  repeat match goal with
         | H : _ ∈ _ :: _ |- _ => apply elem_of_cons in H as [H | H]
         | H : _ ∈ [] |- _ => by apply elem_of_nil in H
         end;
  simplify_eq.

Section TeardownRuns.

Context {Env : Type}.
Variable collab : Collaborators Env.
Variable slack_message : ConnectorContext → outcome string.



(** X3.  What a teardown never does: it uploads secrets only for a run that
    uses remote secrets and whose updated secrets directory is set, saves
    the report only when the run is set to save reports, sends a message
    only when both webhook and channel are set (and then to that channel and
    webhook), and never fetches the connector secrets. *)
Theorem teardown_calls_only_when_due (exc : option py_exc) (w : World Env) :
  let evs := new_events w (__aexit__ collab slack_message exc w).2 in
  (CallSecretsUpload ∈ evs →
     use_remote_secrets (ctx w) = true ∧ _updated_secrets_dir (ctx w) ≠ None) ∧
  (∀ r, CallReportSave r ∈ evs → should_save_report (ctx w) = true) ∧
  (∀ message channel webhook, CallSendMessage message channel webhook ∈ evs →
     slack_webhook (ctx w) ≠ None ∧ reporting_slack_channel (ctx w) ≠ None ∧
     channel = reporting_slack_channel (ctx w) ∧ webhook = slack_webhook (ctx w)) ∧
  CallSecretsGet ∉ evs.
Proof.
  destruct w as [self e tr]. simpl.
  destruct (report self) as [attached |] eqn:Hrep;
    unfold_M; case_calls; new_events_of;
    (split; [intros Hin; event_in; by apply should_save_updated_secrets_true |]);
    (split; [intros r Hin; by event_in |]);
    (split; [intros message channel webhook Hin; event_in;
             match goal with
             | H : should_send_slack_message _ = true |- _ =>
                 apply should_send_slack_message_true in H as [? ?]
             end; done |]);
    intros Hin; by event_in.
Qed.

End TeardownRuns.

(** ** Descriptor fields *)

(** X4.  Given the data section of the descriptor, [docker_image] is the
    repository, a colon and the tag when both are strings; it fails with
    [KeyError] for [dockerRepository] when that key is missing, whether or
    not the tag is there, and with [KeyError] for [dockerImageTag] when only
    the tag is missing; an error of the metadata accessor propagates. *)
Theorem docker_image_outcomes
    (METADATA_FILE_NAME : string) (safe_load : string → outcome yaml)
    (format_value : yaml → string)
    (fs : gmap path fs_node) (connector : ConnectorWithModifiedFiles) :
  (∀ s, format_value (YStr s) = s) →
  let image := docker_image METADATA_FILE_NAME safe_load format_value fs connector in
  let md := metadata METADATA_FILE_NAME safe_load fs connector in
  (∀ e, md = Raise e → image = Raise e) ∧
  (∀ entries, md = Return (YMap entries) →
     (dict_lookup "dockerRepository" entries = None →
        image = Raise (KeyError "dockerRepository")) ∧
     (∀ repository, dict_lookup "dockerRepository" entries = Some repository →
        dict_lookup "dockerImageTag" entries = None →
        image = Raise (KeyError "dockerImageTag")) ∧
     (∀ repository tag,
        dict_lookup "dockerRepository" entries = Some (YStr repository) →
        dict_lookup "dockerImageTag" entries = Some (YStr tag) →
        image = Return (repository +:+ ":" +:+ tag))).
Proof.
  intros Hstr image md. subst image md.
  unfold docker_image, docker_repository, docker_image_tag. split.
  - intros e ->. done.
  - intros entries ->. simpl. split; [| split].
    + intros ->. done.
    + intros repository -> ->. done.
    + intros repository tag -> ->. simpl. by rewrite !Hstr.
Qed.

Lemma docker_image_outcomes_witness :
  (∀ s, format_of_str (YStr s) = s) ∧
  docker_image "metadata.yaml"
    (load_as (Some (YMap [(YStr "data", source_foo_data [])])))
    format_of_str source_foo_fs source_foo = Return "airbyte/source-foo:1.2.3".
Proof.
  split; [done |].
  destruct (proj2 (docker_image_outcomes "metadata.yaml"
                     (load_as (Some (YMap [(YStr "data", source_foo_data [])])))
                     format_of_str source_foo_fs source_foo (λ s, eq_refl))
              [ (YStr "dockerRepository", YStr "airbyte/source-foo");
                (YStr "dockerImageTag", YStr "1.2.3") ] eq_refl)
    as (_ & _ & Himage).
  exact (Himage "airbyte/source-foo" "1.2.3" eq_refl eq_refl).
Defined.

(** X5.  A descriptor whose [data] entry is not a mapping passes the
    metadata accessor, and fails at every use: the field accessors raise
    [TypeError] and the step-skip policy raises [AttributeError]. *)
Theorem data_section_not_a_mapping
    (METADATA_FILE_NAME : string) (safe_load : string → outcome yaml)
    (format_value : yaml → string)
    (fs : gmap path fs_node) (connector : ConnectorWithModifiedFiles) (md : yaml) :
  metadata METADATA_FILE_NAME safe_load fs connector = Return md →
  is_mapping md = false →
  docker_repository METADATA_FILE_NAME safe_load fs connector = Raise TypeError ∧
  docker_image_tag METADATA_FILE_NAME safe_load fs connector = Raise TypeError ∧
  docker_image METADATA_FILE_NAME safe_load format_value fs connector = Raise TypeError ∧
  _get_step_id_to_skip_according_to_metadata METADATA_FILE_NAME safe_load fs connector
    = Raise AttributeError.
Proof.
  intros Hmd Hshape.
  unfold docker_image, docker_repository, docker_image_tag,
    _get_step_id_to_skip_according_to_metadata, step_id_to_skip_of,
    enabled_test_suites.
  rewrite Hmd. by destruct md.
Qed.

Lemma data_section_not_a_mapping_witness :
  metadata "metadata.yaml" (load_as (Some (YMap [(YStr "data", YInt 3)])))
    source_foo_fs source_foo = Return (YInt 3) ∧
  docker_image "metadata.yaml" (load_as (Some (YMap [(YStr "data", YInt 3)])))
    format_of_str source_foo_fs source_foo = Raise TypeError ∧
  _get_step_id_to_skip_according_to_metadata "metadata.yaml"
    (load_as (Some (YMap [(YStr "data", YInt 3)]))) source_foo_fs source_foo
    = Raise AttributeError.
Proof.
  assert (metadata "metadata.yaml" (load_as (Some (YMap [(YStr "data", YInt 3)])))
            source_foo_fs source_foo = Return (YInt 3)) as Hmd by reflexivity.
  split; [exact Hmd |].
  destruct (data_section_not_a_mapping "metadata.yaml"
              (load_as (Some (YMap [(YStr "data", YInt 3)]))) format_of_str
              source_foo_fs source_foo (YInt 3) Hmd eq_refl)
    as (_ & _ & Himage & Hskip).
  split; [exact Himage | exact Hskip].
Defined.

(** ** Step-skip policy on other descriptors *)

(** Build a sublist of a list that is written out. *)
Ltac sublist_of_table :=
  repeat first [ apply sublist_nil | apply sublist_skip | apply sublist_cons ].

Lemma comprehension_stops_at_first_failure options names bad rest e :
  Forall2 suite_option options names →
  py_getitem bad "suite" = Raise e →
  comprehension (λ option, py_getitem option "suite") (options ++ bad :: rest) = Raise e.
Proof.
  intros Hgood Hbad.
  induction Hgood as [| option name options names (entries & -> & Hlook) _ IH]; simpl.
  - by rewrite Hbad.
  - rewrite Hlook. simpl. by rewrite IH.
Qed.

(** X6.  How the policy fails or defaults on options that are not a list of
    suite options.  An options entry that is present but null (or any other
    scalar that is not a string) raises [TypeError]: the default [[]] only
    replaces an absent key.  In a list, the first item that is not a suite
    option decides: a mapping without [suite] raises [KeyError] for [suite],
    an item that is not a mapping raises [TypeError].  An empty mapping or
    an empty string in place of the list counts as no options at all. *)
Theorem step_id_to_skip_ill_formed_options (entries : list (yaml * yaml)) :
  let policy := step_id_to_skip_of (YMap entries) in
  let options := dict_lookup "connectorTestSuitesOptions" entries in
  (∀ v, options = Some v → not_iterable v = true → policy = Raise TypeError) ∧
  (∀ good names bad rest,
     options = Some (YList (good ++ bad :: rest)) →
     Forall2 suite_option good names →
     (∀ fields, bad = YMap fields → dict_lookup "suite" fields = None →
        policy = Raise (KeyError "suite")) ∧
     (is_mapping bad = false → policy = Raise TypeError)) ∧
  (options = Some (YMap []) ∨ options = Some (YStr "") →
     policy = Return [UNIT; INTEGRATION; ACCEPTANCE]).
Proof.
  intros policy options. subst policy options.
  unfold step_id_to_skip_of, enabled_test_suites. simpl. split; [| split].
  - intros v -> Hscalar. by destruct v.
  - intros good names bad rest -> Hgood. simpl. split.
    + intros fields -> Hmissing.
      rewrite (comprehension_stops_at_first_failure good names _ rest (KeyError "suite"));
        [done | done |]. simpl. by rewrite Hmissing.
    + intros Hshape.
      rewrite (comprehension_stops_at_first_failure good names _ rest TypeError);
        [done | done |]. by destruct bad.
  - by intros [-> | ->].
Qed.

Lemma step_id_to_skip_ill_formed_options_witness :
  step_id_to_skip_of (YMap [(YStr "connectorTestSuitesOptions", YNull)])
    = Raise TypeError ∧
  step_id_to_skip_of
    (YMap [(YStr "connectorTestSuitesOptions",
            YList [ YMap [(YStr "suite", YStr "unitTests")];
                    YMap [(YStr "testSecrets", YList [])];
                    YStr "acceptanceTests" ])])
    = Raise (KeyError "suite").
Proof.
  split.
  - apply (proj1 (step_id_to_skip_ill_formed_options
                    [(YStr "connectorTestSuitesOptions", YNull)]) YNull);
      reflexivity.
  - destruct (proj1 (proj2 (step_id_to_skip_ill_formed_options
                [(YStr "connectorTestSuitesOptions",
                  YList [ YMap [(YStr "suite", YStr "unitTests")];
                          YMap [(YStr "testSecrets", YList [])];
                          YStr "acceptanceTests" ])]))
              [YMap [(YStr "suite", YStr "unitTests")]] [YStr "unitTests"]
              (YMap [(YStr "testSecrets", YList [])]) [YStr "acceptanceTests"]
              eq_refl) as [Hkey _].
    + constructor; [| constructor]. eexists. split; reflexivity.
    + by apply (Hkey [(YStr "testSecrets", YList [])]).
Defined.

Lemma steps_not_in_same_listing names names' :
  (∀ name id, (name, id) ∈ TEST_SUITE_NAME_TO_STEP_ID →
     YStr name ∈ names ↔ YStr name ∈ names') →
  steps_not_in names = steps_not_in names'.
Proof.
  intros Hsame.
  assert (∀ name id, (name, id) ∈ TEST_SUITE_NAME_TO_STEP_ID →
            str_in name names = str_in name names') as Hb.
  { intros name id Hin. specialize (Hsame name id Hin).
    destruct (str_in name names') eqn:Hin'.
    - apply str_in_true, Hsame. by apply str_in_true.
    - apply str_in_false. rewrite Hsame. by apply str_in_false. }
  unfold steps_not_in, TEST_SUITE_NAME_TO_STEP_ID in *. simpl.
  by rewrite (Hb "unitTests" UNIT), (Hb "integrationTests" INTEGRATION),
    (Hb "acceptanceTests" ACCEPTANCE) by in_table.
Qed.

(** X7.  The skip list depends only on which of the three recognized names
    are listed: the order of the options, repeated options, options for
    suites that the table does not know and suite values that are not
    strings make no difference. *)
Theorem step_id_to_skip_same_listing (md md' : yaml) (names names' : list yaml) :
  declares_suites md names →
  declares_suites md' names' →
  (∀ name id, (name, id) ∈ TEST_SUITE_NAME_TO_STEP_ID →
     YStr name ∈ names ↔ YStr name ∈ names') →
  step_id_to_skip_of md = step_id_to_skip_of md' ∧
  ∃ skipped, step_id_to_skip_of md = Return skipped.
Proof.
  intros Hmd Hmd' Hsame. unfold step_id_to_skip_of.
  rewrite (enabled_test_suites_declared _ _ Hmd), (enabled_test_suites_declared _ _ Hmd').
  simpl. rewrite (steps_not_in_same_listing names names' Hsame). eauto.
Qed.

Lemma step_id_to_skip_same_listing_witness :
  step_id_to_skip_of unit_and_acceptance = step_id_to_skip_of acceptance_live_unit_unit ∧
  step_id_to_skip_of unit_and_acceptance = Return [INTEGRATION].
Proof.
  split; [| reflexivity].
  apply (step_id_to_skip_same_listing unit_and_acceptance acceptance_live_unit_unit
           [YStr "unitTests"; YStr "acceptanceTests"]
           [YStr "acceptanceTests"; YStr "liveTests"; YStr "unitTests"; YStr "unitTests"]).
  - eexists. split; [reflexivity |]. simpl.
    repeat (constructor; [eexists; split; reflexivity |]). constructor.
  - eexists. split; [reflexivity |]. simpl.
    repeat (constructor; [eexists; split; reflexivity |]). constructor.
  - intros name id Hin.
    apply elem_of_cons in Hin as [[= -> ->] | Hin]; [split; intros _; in_table |].
    apply elem_of_cons in Hin as [[= -> ->] | Hin].
    + split; intros Hin'; exfalso; event_in.
    + apply list_elem_of_singleton in Hin as [= -> ->]. split; intros _; in_table.
Defined.

(** X8.  Listing more suites never skips more: when every name listed by
    one descriptor is listed by another, the skip list of the second is a
    sublist of the skip list of the first.  Every skip list is a sublist of
    the three recognized identifiers, and it is empty when all three names
    are listed. *)
Theorem step_id_to_skip_antitone (md md' : yaml) (names names' : list yaml) :
  declares_suites md names →
  declares_suites md' names' →
  (∀ v, v ∈ names → v ∈ names') →
  ∃ skipped skipped',
    step_id_to_skip_of md = Return skipped ∧
    step_id_to_skip_of md' = Return skipped' ∧
    skipped' `sublist_of` skipped ∧
    skipped `sublist_of` recognized_step_ids ∧
    ((∀ name id, (name, id) ∈ TEST_SUITE_NAME_TO_STEP_ID → YStr name ∈ names) →
     skipped = []).
Proof.
  intros Hmd Hmd' Hsub. exists (steps_not_in names), (steps_not_in names').
  unfold step_id_to_skip_of.
  rewrite (enabled_test_suites_declared _ _ Hmd), (enabled_test_suites_declared _ _ Hmd').
  split; [done |]. split; [done |].
  assert (∀ name, str_in name names = true → str_in name names' = true) as Himp.
  { intros name Hin. apply str_in_true, Hsub. by apply str_in_true. }
  unfold steps_not_in, recognized_step_ids, TEST_SUITE_NAME_TO_STEP_ID. simpl.
  split; [| split].
  - destruct (str_in "unitTests" names) eqn:Hu; [rewrite (Himp _ Hu) |];
      (destruct (str_in "integrationTests" names) eqn:Hi; [rewrite (Himp _ Hi) |]);
      (destruct (str_in "acceptanceTests" names) eqn:Ha; [rewrite (Himp _ Ha) |]);
      simpl;
      try destruct (str_in "unitTests" names');
      try destruct (str_in "integrationTests" names');
      try destruct (str_in "acceptanceTests" names');
      simpl; sublist_of_table.
  - destruct (str_in "unitTests" names), (str_in "integrationTests" names),
      (str_in "acceptanceTests" names); simpl; sublist_of_table.
  - intros Hall.
    rewrite (proj2 (str_in_true "unitTests" names)),
      (proj2 (str_in_true "integrationTests" names)),
      (proj2 (str_in_true "acceptanceTests" names)); [done | ..];
      eapply Hall; unfold TEST_SUITE_NAME_TO_STEP_ID; in_table.
Qed.

Lemma step_id_to_skip_antitone_witness :
  ∃ skipped skipped',
    step_id_to_skip_of (source_foo_data unit_tests_only) = Return skipped ∧
    step_id_to_skip_of unit_and_acceptance = Return skipped' ∧
    skipped' `sublist_of` skipped.
Proof.
  destruct (step_id_to_skip_antitone (source_foo_data unit_tests_only) unit_and_acceptance
              [YStr "unitTests"] [YStr "unitTests"; YStr "acceptanceTests"])
    as (skipped & skipped' & H1 & H2 & Hsub & _).
  - eexists. split; [reflexivity |]. simpl.
    repeat (constructor; [eexists; split; reflexivity |]). constructor.
  - eexists. split; [reflexivity |]. simpl.
    repeat (constructor; [eexists; split; reflexivity |]). constructor.
  - intros v Hin. apply list_elem_of_singleton in Hin as ->. in_table.
  - by exists skipped, skipped'.
Defined.

(** ** Applying the policy more than once *)

Section SkipTwice.

Variable METADATA_FILE_NAME : string.
Variable safe_load : string → outcome yaml.
Variable fs : gmap path fs_node.
Variable connector : ConnectorWithModifiedFiles.

Let apply_policy :=
  _skip_metadata_disabled_test_suites METADATA_FILE_NAME safe_load fs connector.

(** One application, with the heap it leaves: the old heap and two new
    objects. *)
Lemma skip_disabled_heap l σ o xs to_skip :
  σ !! l = Some (ObjRunStepOptions o) →
  σ !! skip_steps o = Some (ObjList xs) →
  _get_step_id_to_skip_according_to_metadata
    METADATA_FILE_NAME safe_load fs connector = Return to_skip →
  ∃ l_items l_copy,
    σ !! l_items = None ∧ σ !! l_copy = None ∧ l_items ≠ l_copy ∧
    apply_policy l σ =
      Some (Return l_copy,
            <[l_copy := ObjRunStepOptions (with_skip_steps l_items o)]>
              (<[l_items := ObjList (xs ++ to_skip)]> σ)).
Proof.
  intros Hl Hxs Hpolicy.
  destruct (deepcopy_options l σ o xs Hl Hxs)
    as (l_items & l_copy & Hf1 & Hf2 & Hne & Hcopy).
  exists l_items, l_copy. split; [done |]. split; [done |]. split; [done |].
  unfold apply_policy, _skip_metadata_disabled_test_suites.
  rewrite Hcopy. simpl. unfold getattr_skip_steps. rewrite lookup_insert_eq. simpl.
  rewrite Hpolicy. unfold list_iadd.
  rewrite lookup_insert_ne by done. rewrite lookup_insert_eq. simpl.
  unfold setattr_skip_steps. rewrite lookup_insert_ne by done.
  rewrite lookup_insert_eq. simpl. do 2 f_equal.
  apply map_eq. intros k. rewrite !lookup_insert.
  repeat case_decide; by simplify_eq.
Qed.

(** X9.  The policy is not idempotent: applied to its own result, it
    appends the computed skip list a second time.  The options it started
    from and the first result keep their lists. *)
Theorem skip_disabled_applied_to_its_result l σ o xs to_skip :
  σ !! l = Some (ObjRunStepOptions o) →
  σ !! skip_steps o = Some (ObjList xs) →
  _get_step_id_to_skip_according_to_metadata
    METADATA_FILE_NAME safe_load fs connector = Return to_skip →
  ∃ l1 σ1 l2 σ2,
    apply_policy l σ = Some (Return l1, σ1) ∧
    apply_policy l1 σ1 = Some (Return l2, σ2) ∧
    skip_list_at l2 σ2 = Some (xs ++ to_skip ++ to_skip) ∧
    skip_list_at l1 σ2 = Some (xs ++ to_skip) ∧
    skip_list_at l σ2 = Some xs.
Proof.
  intros Hl Hxs Hpolicy.
  destruct (skip_disabled_heap l σ o xs to_skip Hl Hxs Hpolicy)
    as (li1 & l1 & Hf1 & Hf1' & Hne1 & Hfirst).
  set (σ1 := <[l1 := ObjRunStepOptions (with_skip_steps li1 o)]>
               (<[li1 := ObjList (xs ++ to_skip)]> σ)) in *.
  assert (σ1 !! l1 = Some (ObjRunStepOptions (with_skip_steps li1 o))) as Hl1
    by apply lookup_insert_eq.
  assert (σ1 !! li1 = Some (ObjList (xs ++ to_skip))) as Hli1.
  { unfold σ1. rewrite lookup_insert_ne by done. apply lookup_insert_eq. }
  assert (∀ k v, σ !! k = Some v → σ1 !! k = Some v) as Hframe1.
  { intros k v Hk. unfold σ1. rewrite !lookup_insert_ne; congruence. }
  destruct (skip_disabled_heap l1 σ1 _ _ to_skip Hl1 Hli1 Hpolicy)
    as (li2 & l2 & Hf2 & Hf2' & Hne2 & Hsecond).
  set (σ2 := <[l2 := _]> _) in *.
  assert (∀ k v, σ1 !! k = Some v → σ2 !! k = Some v) as Hframe2.
  { intros k v Hk. unfold σ2. rewrite !lookup_insert_ne; congruence. }
  exists l1, σ1, l2, σ2. split; [done |]. split; [done |]. split; [| split].
  - unfold skip_list_at, σ2. rewrite lookup_insert_eq. simpl.
    rewrite lookup_insert_ne by done. rewrite lookup_insert_eq.
    by rewrite <- app_assoc.
  - unfold skip_list_at. rewrite (Hframe2 _ _ Hl1). simpl. by rewrite (Hframe2 _ _ Hli1).
  - unfold skip_list_at.
    by rewrite (Hframe2 _ _ (Hframe1 _ _ Hl)), (Hframe2 _ _ (Hframe1 _ _ Hxs)).
Qed.

(** X10.  Two applications to the same options give two independent
    results: each holds a list of its own with the computed skip list
    appended once, so that extending one of them in place changes neither
    the other nor the options they were copied from. *)
Theorem skip_disabled_applied_to_same_options l σ o xs to_skip more :
  σ !! l = Some (ObjRunStepOptions o) →
  σ !! skip_steps o = Some (ObjList xs) →
  _get_step_id_to_skip_according_to_metadata
    METADATA_FILE_NAME safe_load fs connector = Return to_skip →
  ∃ l1 σ1 l2 σ2 o1 σ3,
    apply_policy l σ = Some (Return l1, σ1) ∧
    apply_policy l σ1 = Some (Return l2, σ2) ∧
    l1 ≠ l2 ∧
    skip_list_at l1 σ2 = Some (xs ++ to_skip) ∧
    skip_list_at l2 σ2 = Some (xs ++ to_skip) ∧
    σ2 !! l1 = Some (ObjRunStepOptions o1) ∧
    list_iadd (skip_steps o1) more σ2 = Some (Return (skip_steps o1), σ3) ∧
    skip_list_at l1 σ3 = Some (xs ++ to_skip ++ more) ∧
    skip_list_at l2 σ3 = Some (xs ++ to_skip) ∧
    skip_list_at l σ3 = Some xs.
Proof.
  intros Hl Hxs Hpolicy.
  destruct (skip_disabled_heap l σ o xs to_skip Hl Hxs Hpolicy)
    as (li1 & l1 & Hf1 & Hf1' & Hne1 & Hfirst).
  set (σ1 := <[l1 := ObjRunStepOptions (with_skip_steps li1 o)]>
               (<[li1 := ObjList (xs ++ to_skip)]> σ)) in *.
  assert (∀ k v, σ !! k = Some v → σ1 !! k = Some v) as Hframe1.
  { intros k v Hk. unfold σ1. rewrite !lookup_insert_ne; congruence. }
  assert (σ1 !! l1 = Some (ObjRunStepOptions (with_skip_steps li1 o))) as Hl1
    by apply lookup_insert_eq.
  assert (σ1 !! li1 = Some (ObjList (xs ++ to_skip))) as Hli1.
  { unfold σ1. rewrite lookup_insert_ne by done. apply lookup_insert_eq. }
  destruct (skip_disabled_heap l σ1 o xs to_skip (Hframe1 _ _ Hl) (Hframe1 _ _ Hxs) Hpolicy)
    as (li2 & l2 & Hf2 & Hf2' & Hne2 & Hsecond).
  set (σ2 := <[l2 := ObjRunStepOptions (with_skip_steps li2 o)]>
               (<[li2 := ObjList (xs ++ to_skip)]> σ1)) in *.
  assert (∀ k v, σ1 !! k = Some v → σ2 !! k = Some v) as Hframe2.
  { intros k v Hk. unfold σ2. rewrite !lookup_insert_ne; congruence. }
  assert (li1 ≠ li2) as Hlists by congruence.
  assert (li1 ≠ l2) as Hl2 by congruence.
  assert (l1 ≠ l2) as Hobjs by congruence.
  exists l1, σ1, l2, σ2, (with_skip_steps li1 o),
    (<[li1 := ObjList ((xs ++ to_skip) ++ more)]> σ2).
  split; [done |]. split; [done |]. split; [done |].
  split. { unfold skip_list_at. rewrite (Hframe2 _ _ Hl1). simpl. by rewrite (Hframe2 _ _ Hli1). }
  split. { unfold skip_list_at, σ2. rewrite lookup_insert_eq. simpl.
           rewrite lookup_insert_ne by done. by rewrite lookup_insert_eq. }
  split; [by apply Hframe2 |].
  split. { unfold list_iadd. simpl. by rewrite (Hframe2 _ _ Hli1). }
  assert (skip_steps o ≠ li1) as Hold by congruence.
  assert (l ≠ li1) as Hold' by congruence.
  split; [| split].
  - unfold skip_list_at. rewrite lookup_insert_ne by done.
    rewrite (Hframe2 _ _ Hl1). simpl. rewrite lookup_insert_eq.
    by rewrite <- app_assoc.
  - unfold skip_list_at. rewrite lookup_insert_ne by done.
    unfold σ2 at 1. rewrite lookup_insert_eq. simpl.
    rewrite lookup_insert_ne by done. unfold σ2.
    rewrite lookup_insert_ne by done. by rewrite lookup_insert_eq.
  - unfold skip_list_at. rewrite lookup_insert_ne by done.
    rewrite (Hframe2 _ _ (Hframe1 _ _ Hl)).
    rewrite lookup_insert_ne by done.
    by rewrite (Hframe2 _ _ (Hframe1 _ _ Hxs)).
Qed.

End SkipTwice.

Lemma skip_disabled_applied_to_its_result_witness :
  ∃ l1 σ1 l2 σ2,
    _skip_metadata_disabled_test_suites "metadata.yaml"
      (load_as (Some (YMap [(YStr "data", source_foo_data acceptance_tests_only)])))
      source_foo_fs source_foo 1%positive cli_heap = Some (Return l1, σ1) ∧
    _skip_metadata_disabled_test_suites "metadata.yaml"
      (load_as (Some (YMap [(YStr "data", source_foo_data acceptance_tests_only)])))
      source_foo_fs source_foo l1 σ1 = Some (Return l2, σ2) ∧
    skip_list_at l2 σ2 =
      Some [OTHER_STEP "qa_checks"; UNIT; UNIT; INTEGRATION; UNIT; INTEGRATION] ∧
    skip_list_at 1%positive σ2 = Some [OTHER_STEP "qa_checks"; UNIT].
Proof.
  destruct (skip_disabled_applied_to_its_result "metadata.yaml"
              (load_as (Some (YMap [(YStr "data", source_foo_data acceptance_tests_only)])))
              source_foo_fs source_foo 1%positive cli_heap cli_options
              [OTHER_STEP "qa_checks"; UNIT] [UNIT; INTEGRATION]
              eq_refl eq_refl eq_refl)
    as (l1 & σ1 & l2 & σ2 & H1 & H2 & Hlist & _ & Hold).
  by exists l1, σ1, l2, σ2.
Defined.

Lemma skip_disabled_applied_to_same_options_witness :
  ∃ l1 σ1 l2 σ2,
    _skip_metadata_disabled_test_suites "metadata.yaml"
      (load_as (Some (YMap [(YStr "data", source_foo_data acceptance_tests_only)])))
      source_foo_fs source_foo 1%positive cli_heap = Some (Return l1, σ1) ∧
    _skip_metadata_disabled_test_suites "metadata.yaml"
      (load_as (Some (YMap [(YStr "data", source_foo_data acceptance_tests_only)])))
      source_foo_fs source_foo 1%positive σ1 = Some (Return l2, σ2) ∧
    l1 ≠ l2 ∧
    skip_list_at l1 σ2 = Some [OTHER_STEP "qa_checks"; UNIT; UNIT; INTEGRATION] ∧
    skip_list_at l2 σ2 = Some [OTHER_STEP "qa_checks"; UNIT; UNIT; INTEGRATION].
Proof.
  destruct (skip_disabled_applied_to_same_options "metadata.yaml"
              (load_as (Some (YMap [(YStr "data", source_foo_data acceptance_tests_only)])))
              source_foo_fs source_foo 1%positive cli_heap cli_options
              [OTHER_STEP "qa_checks"; UNIT] [UNIT; INTEGRATION] [ACCEPTANCE]
              eq_refl eq_refl eq_refl)
    as (l1 & σ1 & l2 & σ2 & o1 & σ3 & H1 & H2 & Hne & Hl1 & Hl2 & _).
  by exists l1, σ1, l2, σ2.
Defined.

(** ** The constructor *)

Section ConstructorProperties.

Variable METADATA_FILE_NAME : string.
Variable safe_load : string → outcome yaml.
Variable PipelineContext_init : PipelineContextArgs → outcome InheritedAttributes.
Variable fs : gmap path fs_node.

(** An application of the policy that raises, with the heap it leaves. *)
Lemma skip_disabled_raises connector l σ o xs e :
  σ !! l = Some (ObjRunStepOptions o) →
  σ !! skip_steps o = Some (ObjList xs) →
  _get_step_id_to_skip_according_to_metadata
    METADATA_FILE_NAME safe_load fs connector = Raise e →
  ∃ σ',
    _skip_metadata_disabled_test_suites METADATA_FILE_NAME safe_load fs connector l σ
      = Some (Raise e, σ') ∧
    (∀ k v, σ !! k = Some v → σ' !! k = Some v).
Proof.
  intros Hl Hxs Hpolicy.
  destruct (deepcopy_options l σ o xs Hl Hxs)
    as (l_items & l_copy & Hf1 & Hf2 & Hne & Hcopy).
  unfold _skip_metadata_disabled_test_suites. rewrite Hcopy. simpl.
  unfold getattr_skip_steps. rewrite lookup_insert_eq. simpl. rewrite Hpolicy.
  eexists. split; [done |].
  intros k v Hk. rewrite !lookup_insert_ne; congruence.
Qed.

(** X11.  The constructor reads the descriptor: when the step-skip policy
    raises (a descriptor that cannot be read, a document that does not
    parse, no [data] key, options that are no list of suite options), the
    constructor raises the same exception, whatever the base constructor
    would do, and the options of the caller and every other existing object
    are unchanged.  In particular, when the directories above the descriptor
    can be searched and the connector directory holds no descriptor, it
    raises [FileNotFoundError], and when a regular file stands where the
    connector directory should be, it raises [NotADirectoryError]. *)
Theorem constructor_raises_descriptor_error
    (args : ConnectorContextArgs) (σ : gmap loc obj)
    (o : RunStepOptions) (xs : list CONNECTOR_TEST_STEP_ID) :
  σ !! arg_run_step_options args = Some (ObjRunStepOptions o) →
  σ !! skip_steps o = Some (ObjList xs) →
  let descriptor := metadata_path METADATA_FILE_NAME (arg_connector args) in
  (∀ e,
     _get_step_id_to_skip_according_to_metadata
       METADATA_FILE_NAME safe_load fs (arg_connector args) = Raise e →
     ∃ σ',
       __init__ METADATA_FILE_NAME safe_load PipelineContext_init args fs σ
         = Some (Raise e, σ') ∧
       (∀ k v, σ !! k = Some v → σ' !! k = Some v)) ∧
  (searchable fs descriptor → fs !! descriptor = None →
   ∃ σ',
     __init__ METADATA_FILE_NAME safe_load PipelineContext_init args fs σ
       = Some (Raise (FileNotFoundError descriptor), σ')) ∧
  (∀ text, code_directory (arg_connector args) ≠ [] →
     searchable fs (code_directory (arg_connector args)) →
     fs !! code_directory (arg_connector args) = Some (FsFile text) →
     ∃ σ',
       __init__ METADATA_FILE_NAME safe_load PipelineContext_init args fs σ
         = Some (Raise (NotADirectoryError descriptor), σ')).
Proof.
  intros Hl Hxs descriptor.
  assert (∀ e,
     _get_step_id_to_skip_according_to_metadata
       METADATA_FILE_NAME safe_load fs (arg_connector args) = Raise e →
     ∃ σ',
       __init__ METADATA_FILE_NAME safe_load PipelineContext_init args fs σ
         = Some (Raise e, σ') ∧
       (∀ k v, σ !! k = Some v → σ' !! k = Some v)) as Hraise.
  { intros e Hpolicy.
    destruct (skip_disabled_raises _ _ σ o xs e Hl Hxs Hpolicy) as (σ' & Hcall & Hframe).
    exists σ'. split; [| done]. unfold __init__. by rewrite Hcall. }
  split; [exact Hraise |]. split.
  - intros Hsearch Habsent.
    destruct (Hraise (FileNotFoundError descriptor)) as (σ' & Hcall & _).
    + unfold _get_step_id_to_skip_according_to_metadata.
      by rewrite metadata_absent.
    + by exists σ'.
  - intros text Hdir Hsearch Hfile.
    destruct (Hraise (NotADirectoryError descriptor)) as (σ' & Hcall & _).
    + unfold _get_step_id_to_skip_according_to_metadata.
      by rewrite (metadata_directory_is_a_file _ _ _ _ text).
    + by exists σ'.
Qed.

(** X12.  When the policy and the base constructor return, the constructor
    returns a context that holds no secrets yet (no secrets directory, no
    updated secrets directory, no fetched connector secrets) and therefore
    has nothing to upload, whose credentials are the arguments as given, and
    it has handed to the base constructor a new options object whose skip
    list is that of the caller's options followed by the computed skip list;
    the caller's options are unchanged. *)
Theorem constructor_builds_fresh_context
    (args : ConnectorContextArgs) (σ : gmap loc obj)
    (o : RunStepOptions) (xs to_skip : list CONNECTOR_TEST_STEP_ID) :
  σ !! arg_run_step_options args = Some (ObjRunStepOptions o) →
  σ !! skip_steps o = Some (ObjList xs) →
  _get_step_id_to_skip_according_to_metadata
    METADATA_FILE_NAME safe_load fs (arg_connector args) = Return to_skip →
  (∀ kwargs, returns (PipelineContext_init kwargs) = true) →
  ∃ built σ',
    __init__ METADATA_FILE_NAME safe_load PipelineContext_init args fs σ
      = Some (Return built, σ') ∧
    secrets_dir (new_self built) = None ∧
    updated_secrets_dir (new_self built) = None ∧
    _connector_secrets (new_self built) = None ∧
    should_save_updated_secrets (new_self built) = false ∧
    docker_hub_username_secret (new_self built) =
      set_secret "docker_hub_username" <$> arg_docker_hub_username args ∧
    docker_hub_password_secret (new_self built) =
      set_secret "docker_hub_password" <$> arg_docker_hub_password args ∧
    σ !! kw_run_step_options (super_kwargs built) = None ∧
    skip_list_at (kw_run_step_options (super_kwargs built)) σ' = Some (xs ++ to_skip) ∧
    skip_list_at (arg_run_step_options args) σ' = Some xs ∧
    (∀ k v, σ !! k = Some v → σ' !! k = Some v).
Proof.
  intros Hl Hxs Hpolicy Hbase.
  destruct (skip_disabled_heap METADATA_FILE_NAME safe_load fs (arg_connector args)
              _ σ o xs to_skip Hl Hxs Hpolicy)
    as (l_items & l_copy & Hf1 & Hf2 & Hne & Hcall).
  simpl in Hcall. unfold __init__. rewrite Hcall. simpl.
  match goal with
  | |- context [PipelineContext_init ?kw] =>
      specialize (Hbase kw); destruct (PipelineContext_init kw) as [base | e]
  end; [| done].
  set (σ' := <[l_copy := _]> _).
  assert (∀ k v, σ !! k = Some v → σ' !! k = Some v) as Hframe.
  { intros k v Hk. unfold σ'. rewrite !lookup_insert_ne; congruence. }
  eexists _, σ'. split; [reflexivity |]. simpl.
  split; [done |]. split; [done |]. split; [done |].
  split. { unfold should_save_updated_secrets. simpl. apply andb_false_r. }
  split. { unfold docker_hub_username_secret. simpl.
           by destruct (arg_docker_hub_username args). }
  split. { unfold docker_hub_password_secret. simpl.
           by destruct (arg_docker_hub_password args). }
  split; [done |].
  split. { unfold skip_list_at, σ'. rewrite lookup_insert_eq. simpl.
           rewrite lookup_insert_ne by done. by rewrite lookup_insert_eq. }
  split; [| done].
  unfold skip_list_at. by rewrite (Hframe _ _ Hl), (Hframe _ _ Hxs).
Qed.

End ConstructorProperties.

Lemma constructor_raises_descriptor_error_witness :
  cli_heap !! arg_run_step_options local_run_args = Some (ObjRunStepOptions cli_options) ∧
  searchable ∅ (metadata_path "metadata.yaml" source_foo) ∧
  ∃ σ',
    __init__ "metadata.yaml" (load_as None) example_base_init local_run_args ∅ cli_heap
      = Some (Raise (FileNotFoundError
                       ["airbyte-integrations"; "connectors"; "source-foo"; "metadata.yaml"]),
              σ').
Proof.
  split; [reflexivity |]. split; [apply searchable_empty |].
  apply (proj1 (proj2 (constructor_raises_descriptor_error "metadata.yaml" (load_as None)
                         example_base_init ∅ local_run_args cli_heap cli_options
                         [OTHER_STEP "qa_checks"; UNIT] eq_refl eq_refl))).
  - apply searchable_empty.
  - apply lookup_empty.
Defined.

Lemma constructor_builds_fresh_context_witness :
  ∃ built σ',
    __init__ "metadata.yaml"
      (load_as (Some (YMap [(YStr "data", source_foo_data acceptance_tests_only)])))
      example_base_init local_run_args source_foo_fs cli_heap = Some (Return built, σ') ∧
    should_save_updated_secrets (new_self built) = false ∧
    docker_hub_username_secret (new_self built)
      = Some (set_secret "docker_hub_username" "airbyte-ci") ∧
    skip_list_at (kw_run_step_options (super_kwargs built)) σ'
      = Some [OTHER_STEP "qa_checks"; UNIT; UNIT; INTEGRATION] ∧
    skip_list_at 1%positive σ' = Some [OTHER_STEP "qa_checks"; UNIT].
Proof.
  destruct (constructor_builds_fresh_context "metadata.yaml"
              (load_as (Some (YMap [(YStr "data", source_foo_data acceptance_tests_only)])))
              example_base_init source_foo_fs local_run_args cli_heap cli_options
              [OTHER_STEP "qa_checks"; UNIT] [UNIT; INTEGRATION]
              eq_refl eq_refl eq_refl (λ _, eq_refl))
    as (built & σ' & Hcall & _ & _ & _ & Hupload & Huser & _ & _ & Hnew & Hold & _).
  by exists built, σ'.
Defined.

(** ** Credentials and secrets *)

(** X13.  A secret handle always wraps the credential as configured, under
    the name of its accessor, and the build-cache handles come in a fixed
    dependence: whenever the secret-key accessor returns a handle, the
    access-key accessor returns one too (the converse fails when only the
    access key is configured). *)
Theorem credential_handles (self : ConnectorContext) :
  (∀ h, s3_build_cache_access_key_id_secret self = Some h →
     s3_build_cache_access_key_id self = Some (secret_plaintext h) ∧
     secret_name h = "s3_build_cache_access_key_id") ∧
  (∀ h, s3_build_cache_secret_key_secret self = Some h →
     s3_build_cache_secret_key self = Some (secret_plaintext h) ∧
     secret_name h = "s3_build_cache_secret_key" ∧
     is_Some (s3_build_cache_access_key_id_secret self)) ∧
  (∀ h, docker_hub_username_secret self = Some h →
     docker_hub_username self = Some (secret_plaintext h) ∧
     secret_name h = "docker_hub_username") ∧
  (∀ h, docker_hub_password_secret self = Some h →
     docker_hub_password self = Some (secret_plaintext h) ∧
     secret_name h = "docker_hub_password").
Proof.
  unfold s3_build_cache_access_key_id_secret, s3_build_cache_secret_key_secret,
    docker_hub_username_secret, docker_hub_password_secret.
  split; [| split; [| split]].
  - intros h. destruct (s3_build_cache_access_key_id self) as [key_id |]; simpl;
      [| done]. destruct (String.eqb key_id ""); simpl; intros ?; by simplify_eq.
  - intros h. destruct (s3_build_cache_access_key_id self) as [key_id |]; simpl;
      [| done].
    destruct (String.eqb key_id ""); simpl; [done |].
    destruct (s3_build_cache_secret_key self) as [key |]; simpl; [| done].
    destruct (String.eqb key ""); simpl; intros ?; simplify_eq. eauto.
  - intros h. destruct (docker_hub_username self); intros ?; by simplify_eq.
  - intros h. destruct (docker_hub_password self); intros ?; by simplify_eq.
Qed.

Lemma credential_handles_witness :
  s3_build_cache_secret_key_secret
    (new_context (Some "AKIA") (Some "s3cr3t") None None None None None)
    = Some (set_secret "s3_build_cache_secret_key" "s3cr3t") ∧
  is_Some (s3_build_cache_access_key_id_secret
             (new_context (Some "AKIA") (Some "s3cr3t") None None None None None)).
Proof.
  split; [reflexivity |].
  apply (proj1 (proj2 (credential_handles
                         (new_context (Some "AKIA") (Some "s3cr3t") None None None None None)))
           (set_secret "s3_build_cache_secret_key" "s3cr3t")).
  reflexivity.
Defined.

Section FailedFetch.

Context {Env : Type}.
Variable collab : Collaborators Env.

(** X14.  A fetch that raises leaves no trace in the context: the exception
    propagates as it is, no attribute is assigned, and the next call asks
    the secret store again, in the state the failed fetch left it.  A fetch
    that returns assigns [_connector_secrets] and nothing else. *)
Theorem get_connector_secrets_fetch_outcomes (w : World Env) :
  _connector_secrets (ctx w) = None →
  let asked := {| ctx := ctx w;
                  env := (secrets_get_connector_secrets collab (ctx w) (env w)).2;
                  trace := trace w ++ [CallSecretsGet] |} in
  (∀ e, (secrets_get_connector_secrets collab (ctx w) (env w)).1 = Raise e →
     get_connector_secrets collab w = (Raise e, asked) ∧
     (get_connector_secrets collab asked).2.(trace)
       = trace w ++ [CallSecretsGet; CallSecretsGet]) ∧
  (∀ fetched, (secrets_get_connector_secrets collab (ctx w) (env w)).1 = Return fetched →
     get_connector_secrets collab w =
       (Return fetched,
        {| ctx := set_connector_secrets (Some fetched) (ctx w);
           env := env asked; trace := trace asked |})).
Proof.
  destruct w as [self e tr]. simpl. intros Hempty. split.
  - intros x Hfetch. unfold_M. simpl. rewrite Hempty. simpl.
    destruct (secrets_get_connector_secrets collab self e) as [r e'] eqn:Hcall.
    simpl in *. subst r. simpl. split; [done |].
    destruct (secrets_get_connector_secrets collab self e') as [[m | y] e''];
      simpl; by rewrite <- app_assoc.
  - intros fetched Hfetch. unfold_M. simpl. rewrite Hempty. simpl.
    destruct (secrets_get_connector_secrets collab self e) as [r e'] eqn:Hcall.
    simpl in *. by subst r.
Qed.

End FailedFetch.

Lemma get_connector_secrets_fetch_outcomes_witness :
  _connector_secrets (ctx (first_asked notified_context)) = None ∧
  (get_connector_secrets flaky_store (first_asked notified_context)).1
    = Raise (ExternalError "ServiceUnavailable") ∧
  repeatedly 3 (attempt (get_connector_secrets flaky_store)) (first_asked notified_context)
    = (Return [None; Some one_secret; Some one_secret],
       {| ctx := set_connector_secrets (Some one_secret) notified_context;
          env := true; trace := [CallSecretsGet; CallSecretsGet] |}).
Proof.
  split; [reflexivity |].
  destruct (proj1 (get_connector_secrets_fetch_outcomes flaky_store
                     (first_asked notified_context) eq_refl)
              (ExternalError "ServiceUnavailable") eq_refl) as [Hraise _].
  split; [by rewrite Hraise | reflexivity].
Defined.

(** ** What the accessors read *)




